(** * PA school-district ratings scraper: a shallow embedding of
      [great_schools_pull.py] and the properties of its pipeline.

    Layout:
    - [Str]: the Python string methods the program calls;
    - [Re]: a backtracking matcher for the regular expressions it compiles;
    - [Soup]: the part of BeautifulSoup's tree navigation it relies on;
    - the world the program acts on (network, clock, files, log) and an
      exception-and-state monad over it;
    - one module per class of the source;
    - the theorems.

    Python [str] values are modelled by [string].  The model is exact on
    ASCII text: case conversion acts on the letters A-Z, white space and
    digits are the ASCII ones, and a character outside ASCII stands for
    itself.  Python integers are [Z]; delays are in milliseconds. *)

From Stdlib Require Import ZArith Ascii String.
From stdpp Require Import base option list strings gmap.

Local Open Scope char_scope.

(** ** Python string methods *)
Module Str.

Definition in_range (lo hi : nat) (c : ascii) : bool :=
  let n := nat_of_ascii c in (lo <=? n)%nat && (n <=? hi)%nat.

Definition is_upper : ascii -> bool := in_range 65 90.
Definition is_lower : ascii -> bool := in_range 97 122.
Definition is_digit : ascii -> bool := in_range 48 57.

(** [str.isspace] on one character of the ASCII range. *)
Definition is_space (c : ascii) : bool :=
  in_range 9 13 c || in_range 28 32 c.

Definition lower_char (c : ascii) : ascii :=
  if is_upper c then ascii_of_nat (nat_of_ascii c + 32) else c.

(** [s.lower()] *)
Fixpoint lower (s : string) : string :=
  match s with
  | EmptyString => EmptyString
  | String c s' => String (lower_char c) (lower s')
  end.

(** [s.startswith(p)] *)
Fixpoint startswith (p s : string) : bool :=
  match p, s with
  | EmptyString, _ => true
  | String a p', String b s' => if Ascii.eqb a b then startswith p' s' else false
  | String _ _, EmptyString => false
  end.

(** [p in s] *)
Fixpoint contains (p s : string) : bool :=
  startswith p s ||
  match s with
  | EmptyString => false
  | String _ s' => contains p s'
  end.

(** [s.replace(old, new)] for a non-empty [old]: occurrences are replaced
    from left to right and do not overlap.  [skip] counts the characters of
    an occurrence that are still to be dropped. *)
Fixpoint replace_from (old new : string) (skip : nat) (s : string) : string :=
  match s with
  | EmptyString => EmptyString
  | String c s' =>
      match skip with
      | S k => replace_from old new k s'
      | O =>
          if startswith old s
          then new +:+ replace_from old new (String.length old - 1) s'
          else String c (replace_from old new 0 s')
      end
  end.

Definition replace (old new s : string) : string := replace_from old new 0 s.

Fixpoint lstrip (p : ascii -> bool) (s : string) : string :=
  match s with
  | EmptyString => EmptyString
  | String c s' => if p c then lstrip p s' else s
  end.

Fixpoint rstrip (p : ascii -> bool) (s : string) : string :=
  match s with
  | EmptyString => EmptyString
  | String c s' =>
      match rstrip p s' with
      | EmptyString => if p c then EmptyString else String c EmptyString
      | r => String c r
      end
  end.

(** [s.strip(chars)], the characters to remove given as a predicate;
    [s.strip()] is [strip is_space s]. *)
Definition strip (p : ascii -> bool) (s : string) : string :=
  rstrip p (lstrip p s).

Definition hex_digit (n : nat) : ascii :=
  if (n <? 10)%nat then ascii_of_nat (48 + n) else ascii_of_nat (55 + n).

(** Characters [urllib.parse.quote] never escapes, with its default
    [safe='/']. *)
Definition quote_safe (c : ascii) : bool :=
  is_upper c || is_lower c || is_digit c ||
  Ascii.eqb c "_" || Ascii.eqb c "." || Ascii.eqb c "-" || Ascii.eqb c "~" ||
  Ascii.eqb c "/".

(** [urllib.parse.quote(s)] *)
Fixpoint quote (s : string) : string :=
  match s with
  | EmptyString => EmptyString
  | String c s' =>
      if quote_safe c then String c (quote s')
      else
        let n := nat_of_ascii c in
        String "%" (String (hex_digit (n / 16)) (String (hex_digit (n mod 16)) (quote s')))
  end.

(** [int(s)] on a run of decimal digits. *)
Definition digit_value (c : ascii) : Z := Z.of_nat (nat_of_ascii c - 48).

Fixpoint int_from (acc : Z) (s : string) : Z :=
  match s with
  | EmptyString => acc
  | String c s' => int_from (10 * acc + digit_value c) s'
  end.

Definition int (s : string) : Z := int_from 0 s.

(** Truth value of a string: empty is false. *)
Definition truthy (s : string) : bool :=
  match s with EmptyString => false | String _ _ => true end.

(** [sep.join(parts)] *)
Fixpoint join (sep : string) (parts : list string) : string :=
  match parts with
  | [] => EmptyString
  | [x] => x
  | x :: rest => x +:+ sep +:+ join sep rest
  end.

End Str.

(** ** Regular expressions

    Python's [re] is a backtracking matcher: alternatives are tried from
    left to right, quantifiers are greedy, and [search] returns the match
    found at the leftmost position where one exists.  The matcher below
    follows that order through a continuation that receives the unmatched
    rest of the subject. *)
Module Re.

Inductive regex : Type :=
| Eps                                  (* the empty pattern *)
| Chr (p : ascii -> bool)              (* one character of a class *)
| Seq (r1 r2 : regex)                  (* r1r2 *)
| Alt (r1 r2 : regex)                  (* r1|r2 *)
| Opt (r : regex)                      (* r? *)
| Star (r : regex).                    (* r* *)

Definition Plus (r : regex) : regex := Seq r (Star r).

Fixpoint rmatch {A : Type} (r : regex) (s : string)
    (k : string -> option A) {struct r} : option A :=
  match r with
  | Eps => k s
  | Chr p =>
      match s with
      | String c s' => if p c then k s' else None
      | EmptyString => None
      end
  | Seq r1 r2 => rmatch r1 s (fun s1 => rmatch r2 s1 k)
  | Alt r1 r2 =>
      match rmatch r1 s k with
      | Some x => Some x
      | None => rmatch r2 s k
      end
  | Opt r1 =>
      match rmatch r1 s k with
      | Some x => Some x
      | None => k s
      end
  | Star r1 =>
      (fix iter (fuel : nat) (s : string) {struct fuel} : option A :=
         match fuel with
         | O => k s
         | S fuel' =>
             match rmatch r1 s (fun s1 =>
                     if (String.length s1 <? String.length s)%nat
                     then iter fuel' s1 else None) with
             | Some x => Some x
             | None => k s
             end
         end) (String.length s) s
  end.

(** [pattern.match(s)]: the text matched at the start of [s]. *)
Definition match_at (r : regex) (s : string) : option string :=
  rmatch r s (fun rest =>
    Some (String.substring 0 (String.length s - String.length rest) s)).

(** [pattern.search(s).group(0)]: positions are tried from left to right,
    the end of the subject included. *)
Fixpoint search (r : regex) (s : string) : option string :=
  match match_at r s with
  | Some m => Some m
  | None =>
      match s with
      | EmptyString => None
      | String _ s' => search r s'
      end
  end.

Definition found (r : regex) (s : string) : bool :=
  match search r s with Some _ => true | None => false end.

Definition char (c : ascii) : regex := Chr (Ascii.eqb c).
(** A character under [re.I]. *)
Definition ichar (c : ascii) : regex :=
  Chr (fun x => Ascii.eqb (Str.lower_char x) (Str.lower_char c)).

Fixpoint lit_with (one : ascii -> regex) (s : string) : regex :=
  match s with
  | EmptyString => Eps
  | String c s' => Seq (one c) (lit_with one s')
  end.

Definition lit : string -> regex := lit_with char.
Definition ilit : string -> regex := lit_with ichar.

(** [\d] and [.] *)
Definition digit : regex := Chr Str.is_digit.
Definition dot : regex := Chr (fun c => negb (Ascii.eqb c "010")).

End Re.

Local Close Scope char_scope.

(** ** BeautifulSoup

    The parse tree of a page.  The parser itself ([html.parser], driven by
    [BeautifulSoup(source, 'html.parser')]) is a component of the
    environment; the navigation methods the program calls are defined on
    the tree.  Tag and attribute names arrive lower-cased and every
    attribute name occurs once, as the parser delivers them.  Comments,
    doctypes and the contents of script and style elements, which
    [get_text] skips, are not represented. *)
Module Soup.

#[warnings="-register-all"] Inductive node : Type :=
| NavigableString (s : string)
| Tag (name : string) (attrs : list (string * string)) (contents : list node).

(** The [BeautifulSoup] object is itself a tag, named [[document]]. *)
Definition document (contents : list node) : node :=
  Tag "[document]" [] contents.

(** [tag.get_text()]: every string below the tag, in document order. *)
Fixpoint get_text (n : node) : string :=
  match n with
  | NavigableString s => s
  | Tag _ _ cs =>
      (fix join (l : list node) : string :=
         match l with
         | [] => ""
         | c :: l' => get_text c +:+ join l'
         end) cs
  end.

(** [tag.descendants], each element paired with its [.parent]. *)
Fixpoint descendants (n : node) : list (node * node) :=
  match n with
  | NavigableString _ => []
  | Tag _ _ cs =>
      (fix walk (l : list node) : list (node * node) :=
         match l with
         | [] => []
         | c :: l' => (c, n) :: descendants c ++ walk l'
         end) cs
  end.

(** [tag[key]] / [tag.get(key)] *)
Fixpoint attr (key : string) (attrs : list (string * string)) : option string :=
  match attrs with
  | [] => None
  | (k, v) :: rest => if String.eqb k key then Some v else attr key rest
  end.

(** A tag named [name] whose attribute [key] is present and searched
    successfully by the compiled pattern [r].  For [class_] BeautifulSoup
    tries the pattern on each whitespace-separated class and on their
    join; for a pattern that matches no whitespace, as all those of this
    program, that is a search of the attribute value. *)
Definition tag_matches (name key : string) (r : Re.regex) (n : node) : bool :=
  match n with
  | Tag nm attrs _ =>
      String.eqb nm name &&
      match attr key attrs with
      | Some v => Re.found r v
      | None => false
      end
  | NavigableString _ => false
  end.

(** [soup.find_all(name, key=r)] *)
Definition find_all (name key : string) (r : Re.regex) (soup : node) : list node :=
  filter (fun n => tag_matches name key r n = true) (fst <$> descendants soup).

(** [soup.find(name, key=r)] *)
Definition find (name key : string) (r : Re.regex) (soup : node) : option node :=
  head (find_all name key r soup).

Definition string_matches (r : Re.regex) (n : node) : bool :=
  match n with
  | NavigableString s => Re.found r s
  | Tag _ _ _ => false
  end.

(** [soup.find(text=r)]: the first string searched successfully by [r],
    with its parent. *)
Definition find_text (r : Re.regex) (soup : node) : option (string * node) :=
  match filter (fun p => string_matches r (fst p) = true) (descendants soup) with
  | (NavigableString s, parent) :: _ => Some (s, parent)
  | _ => None
  end.

(** [link['href']] of a tag returned by [find_all('a', href=...)]. *)
Definition href (n : node) : string :=
  match n with
  | Tag _ attrs _ => default "" (attr "href" attrs)
  | NavigableString _ => ""
  end.

End Soup.

(** ** Data model *)

(** Values stored in the dictionaries the extractors return. *)
Inductive value : Type :=
| VInt (n : Z)
| VStr (s : string).

(** The dataclass [SchoolDistrictData].  The fields copied from an
    extractor's dictionary hold whatever [dict.get] returned. *)
Record SchoolDistrictData : Type := mkSchoolDistrictData {
  district_name : string;
  county : string;
  greatschools_rating : option value;
  greatschools_url : option value;
  niche_rating : option value;
  niche_url : option value;
  schooldigger_rating : option value;
  schooldigger_url : option value;
  enrollment : option value;
  student_teacher_ratio : option value;
  last_updated : option string
}.

(** Attribute assignment [d.field = v]. *)
Definition set_greatschools_rating (v : option value) (d : SchoolDistrictData) :=
  mkSchoolDistrictData (district_name d) (county d) v (greatschools_url d)
    (niche_rating d) (niche_url d) (schooldigger_rating d) (schooldigger_url d)
    (enrollment d) (student_teacher_ratio d) (last_updated d).
Definition set_greatschools_url (v : option value) (d : SchoolDistrictData) :=
  mkSchoolDistrictData (district_name d) (county d) (greatschools_rating d) v
    (niche_rating d) (niche_url d) (schooldigger_rating d) (schooldigger_url d)
    (enrollment d) (student_teacher_ratio d) (last_updated d).
Definition set_niche_rating (v : option value) (d : SchoolDistrictData) :=
  mkSchoolDistrictData (district_name d) (county d) (greatschools_rating d)
    (greatschools_url d) v (niche_url d) (schooldigger_rating d)
    (schooldigger_url d) (enrollment d) (student_teacher_ratio d) (last_updated d).
Definition set_niche_url (v : option value) (d : SchoolDistrictData) :=
  mkSchoolDistrictData (district_name d) (county d) (greatschools_rating d)
    (greatschools_url d) (niche_rating d) v (schooldigger_rating d)
    (schooldigger_url d) (enrollment d) (student_teacher_ratio d) (last_updated d).
Definition set_schooldigger_rating (v : option value) (d : SchoolDistrictData) :=
  mkSchoolDistrictData (district_name d) (county d) (greatschools_rating d)
    (greatschools_url d) (niche_rating d) (niche_url d) v
    (schooldigger_url d) (enrollment d) (student_teacher_ratio d) (last_updated d).
Definition set_schooldigger_url (v : option value) (d : SchoolDistrictData) :=
  mkSchoolDistrictData (district_name d) (county d) (greatschools_rating d)
    (greatschools_url d) (niche_rating d) (niche_url d) (schooldigger_rating d)
    v (enrollment d) (student_teacher_ratio d) (last_updated d).
Definition set_enrollment (v : option value) (d : SchoolDistrictData) :=
  mkSchoolDistrictData (district_name d) (county d) (greatschools_rating d)
    (greatschools_url d) (niche_rating d) (niche_url d) (schooldigger_rating d)
    (schooldigger_url d) v (student_teacher_ratio d) (last_updated d).
Definition set_student_teacher_ratio (v : option value) (d : SchoolDistrictData) :=
  mkSchoolDistrictData (district_name d) (county d) (greatschools_rating d)
    (greatschools_url d) (niche_rating d) (niche_url d) (schooldigger_rating d)
    (schooldigger_url d) (enrollment d) v (last_updated d).

(** ** The world and its monad *)

Inductive exn : Type :=
| ConnectionError
| Timeout
| HTTPError (status_code : Z)
| OtherException (msg : string).

(** What the session receives for one GET: an exception of the transport,
    or a response with its final status code and body. *)
Inductive http_outcome : Type :=
| Fails (e : exn)
| Responds (status_code : Z) (text : string).

Record Response : Type := mkResponse { status_code : Z; text : string }.

Inductive event : Type :=
| EvSleep (milliseconds : nat)
| EvGet (url : string) (timeout_seconds : nat)
| EvLogError (url : string) (e : exn)
| EvLogProcessing (name : string) (index total : nat)
| EvLogSaved (count : nat) (filename : string)
| EvLogComplete (output_file : string)
| EvToCsv (filename : string) (rows : list SchoolDistrictData).

(** The environment: what the outside world answers.  [net n url] is the
    outcome of the GET issued after [n] earlier ones, [clock n] the
    [n]-th reading of [pd.Timestamp.now().isoformat()]. *)
Record Env : Type := mkEnv {
  net : nat -> string -> http_outcome;
  clock : nat -> string;
  html_parser : string -> list Soup.node;
  urljoin : string -> string -> string
}.

Record world : Type := mkWorld {
  gets : nat;
  ticks : nat;
  files : gmap string (list SchoolDistrictData);
  trace : list event
}.

Inductive result (A : Type) : Type :=
| Ok (a : A)
| Raise (e : exn).
Arguments Ok {A} a.
Arguments Raise {A} e.

Definition M (A : Type) : Type := world -> result A * world.

Definition ret {A} (a : A) : M A := fun w => (Ok a, w).

Definition bind {A B} (m : M A) (k : A -> M B) : M B :=
  fun w =>
    match m w with
    | (Ok a, w') => k a w'
    | (Raise e, w') => (Raise e, w')
    end.

Definition raise {A} (e : exn) : M A := fun w => (Raise e, w).

(** [try: body  except Exception as e: handler(e)] *)
Definition try_except {A} (body : M A) (handler : exn -> M A) : M A :=
  fun w =>
    match body w with
    | (Ok a, w') => (Ok a, w')
    | (Raise e, w') => handler e w'
    end.

Notation "x <- c1 ;; c2" := (bind c1 (fun x => c2))
  (at level 100, c1 at next level, right associativity).
Notation "c1 ;; c2" := (bind c1 (fun _ => c2))
  (at level 100, right associativity).

Definition emit (e : event) : M unit :=
  fun w => (Ok tt, mkWorld (gets w) (ticks w) (files w) (trace w ++ [e])).

(** [time.sleep(delay)] *)
Definition sleep (milliseconds : nat) : M unit := emit (EvSleep milliseconds).

(** [session.get(url, timeout=t)] *)
Definition session_get (E : Env) (url : string) (timeout_seconds : nat) : M Response :=
  fun w =>
    let w' := mkWorld (S (gets w)) (ticks w) (files w)
                (trace w ++ [EvGet url timeout_seconds]) in
    match net E (gets w) url with
    | Fails e => (Raise e, w')
    | Responds st body => (Ok (mkResponse st body), w')
    end.

(** [response.raise_for_status()]: requests raises [HTTPError] for the
    client-error and server-error codes, 400 to 599. *)
Definition raise_for_status (r : Response) : M unit :=
  if ((400 <=? status_code r) && (status_code r <? 600))%Z
  then raise (HTTPError (status_code r))
  else ret tt.

(** [pd.Timestamp.now().isoformat()] *)
Definition timestamp_now (E : Env) : M string :=
  fun w => (Ok (clock E (ticks w)),
            mkWorld (gets w) (S (ticks w)) (files w) (trace w)).

(** [df.to_csv(filename, index=False)]: the file is created or replaced
    and holds one row per record. *)
Definition to_csv (filename : string) (rows : list SchoolDistrictData) : M unit :=
  fun w => (Ok tt,
            mkWorld (gets w) (ticks w) (<[filename := rows]> (files w))
              (trace w ++ [EvToCsv filename rows])).

(** An [Optional[str]] used as a condition: [None] and [""] are false.
    The result is the string when the condition holds. *)
Definition if_truthy (o : option string) : option string :=
  match o with
  | Some s => if Str.truthy s then Some s else None
  | None => None
  end.

(** ["?" + "&".join([f"{k}={quote(str(v))}" for k, v in params.items()])] *)
Definition query_string (params : list (string * string)) : string :=
  "?" +:+ Str.join "&" ((fun kv => fst kv +:+ "=" +:+ Str.quote (snd kv)) <$> params).

(** ** class BaseScraper *)
Module BaseScraper.
Section WithEnv.
Variable E : Env.

Definition get_page_source (delay : nat) (url : string) : M (option string) :=
  try_except
    (sleep delay ;;
     response <- session_get E url 10 ;;
     raise_for_status response ;;
     ret (Some (text response)))
    (fun e => emit (EvLogError url e) ;; ret None).

Definition BeautifulSoup (source : string) : Soup.node :=
  Soup.document (html_parser E source).

(** The loop that ends each [search_district]:
  [for link in district_links:
     if district_name.lower() in link.get_text().lower():
       return urljoin(self.base_url, link['href'])
   return None] *)
Fixpoint first_matching_link (base_url district_name : string)
    (district_links : list Soup.node) : option string :=
  match district_links with
  | [] => None
  | link :: rest =>
      if Str.contains (Str.lower district_name) (Str.lower (Soup.get_text link))
      then Some (urljoin E base_url (Soup.href link))
      else first_matching_link base_url district_name rest
  end.
End WithEnv.
End BaseScraper.

(** ** class GreatSchoolsScraper *)
Module GreatSchoolsScraper.
Definition delay : nat := 1000.
Definition base_url : string := "https://www.greatschools.org".

(** [r'/pennsylvania/.*-district/'] *)
Definition district_href : Re.regex :=
  Re.Seq (Re.lit "/pennsylvania/") (Re.Seq (Re.Star Re.dot) (Re.lit "-district/")).
(** [r'rating|score'] *)
Definition rating_class : Re.regex := Re.Alt (Re.lit "rating") (Re.lit "score").
(** [r'(\d+)'] *)
Definition digits : Re.regex := Re.Plus Re.digit.
(** [r'students|enrollment'] with [re.I] *)
Definition enrollment_text : Re.regex := Re.Alt (Re.ilit "students") (Re.ilit "enrollment").
(** The grouped pattern [\d+(?:,\d+)* ]: a digit run, then any number of
  comma-led digit runs. *)
Definition grouped_digits : Re.regex :=
  Re.Seq (Re.Plus Re.digit) (Re.Star (Re.Seq (Re.char ","%char) (Re.Plus Re.digit))).
(** [r'student.*teacher|teacher.*student'] with [re.I] *)
Definition ratio_text : Re.regex :=
  Re.Alt (Re.Seq (Re.ilit "student") (Re.Seq (Re.Star Re.dot) (Re.ilit "teacher")))
         (Re.Seq (Re.ilit "teacher") (Re.Seq (Re.Star Re.dot) (Re.ilit "student"))).
(** [r'(\d+:\d+)'] *)
Definition ratio : Re.regex :=
  Re.Seq (Re.Plus Re.digit) (Re.Seq (Re.char ":"%char) (Re.Plus Re.digit)).

Section WithEnv.
Variable E : Env.

Definition search_district (district_name state : string) : M (option string) :=
  let search_url := base_url +:+ "/search/search.page" in
  let params := [("q", district_name); ("state", state); ("level", "district")] in
  source <- BaseScraper.get_page_source E delay (search_url +:+ query_string params) ;;
  match if_truthy source with
  | None => ret None
  | Some source =>
      let soup := BaseScraper.BeautifulSoup E source in
      let district_links := Soup.find_all "a" "href" district_href soup in
      ret (BaseScraper.first_matching_link E base_url district_name district_links)
  end.

(** The three extraction steps, each from the parsed page to the
  dictionary so far.  A string found in the tree always has a parent
  and tags are truthy, so [parent.get_text()] is what the conditional
  expressions of the source evaluate. *)
Definition extract_rating (soup : Soup.node) (data : gmap string value) : gmap string value :=
  match Soup.find "div" "class" rating_class soup with
  | Some rating_elem =>
      let rating_text := Str.strip Str.is_space (Soup.get_text rating_elem) in
      match Re.search digits rating_text with
      | Some rating_match => <["greatschools_rating" := VInt (Str.int rating_match)]> data
      | None => data
      end
  | None => data
  end.

Definition extract_enrollment (soup : Soup.node) (data : gmap string value) : gmap string value :=
  match Soup.find_text enrollment_text soup with
  | Some (enrollment_elem, parent) =>
      if Str.truthy enrollment_elem then
        let enrollment_text := Soup.get_text parent in
        match Re.search grouped_digits enrollment_text with
        | Some enrollment_match =>
            <["enrollment" := VInt (Str.int (Str.replace "," "" enrollment_match))]> data
        | None => data
        end
      else data
  | None => data
  end.

Definition extract_ratio (soup : Soup.node) (data : gmap string value) : gmap string value :=
  match Soup.find_text ratio_text soup with
  | Some (ratio_elem, parent) =>
      if Str.truthy ratio_elem then
        match Re.search ratio (Soup.get_text parent) with
        | Some ratio_match => <["student_teacher_ratio" := VStr ratio_match]> data
        | None => data
        end
      else data
  | None => data
  end.

Definition scrape_district_data (district_url : string) : M (gmap string value) :=
  source <- BaseScraper.get_page_source E delay district_url ;;
  match if_truthy source with
  | None => ret ∅
  | Some source =>
      let soup := BaseScraper.BeautifulSoup E source in
      let data := ∅ in
      let data := extract_rating soup data in
      let data := extract_enrollment soup data in
      let data := extract_ratio soup data in
      let data := <["greatschools_url" := VStr district_url]> data in
      ret data
  end.
End WithEnv.
End GreatSchoolsScraper.

(** ** class NicheScraper *)
Module NicheScraper.
Definition delay : nat := 1500.
Definition base_url : string := "https://www.niche.com".

(** [r'/k12/d/.*pennsylvania'] *)
Definition district_href : Re.regex :=
  Re.Seq (Re.lit "/k12/d/") (Re.Seq (Re.Star Re.dot) (Re.lit "pennsylvania")).
(** [r'grade|rating'] *)
Definition grade_class : Re.regex := Re.Alt (Re.lit "grade") (Re.lit "rating").
(** [r'([A-F][+-]?)'] *)
Definition grade : Re.regex :=
  Re.Seq (Re.Chr (Str.in_range 65 70))
         (Re.Opt (Re.Chr (fun c => Ascii.eqb c "+"%char || Ascii.eqb c "-"%char))).

(** [district_name.lower().replace(' ', '-').replace('school-district', '').strip('-')] *)
Definition district_slug (district_name : string) : string :=
  Str.strip (fun c => Ascii.eqb c "-"%char)
    (Str.replace "school-district" "" (Str.replace " " "-" (Str.lower district_name))).

Definition potential_url (district_name state : string) : string :=
  base_url +:+ "/k12/d/" +:+ district_slug district_name +:+ "-" +:+ state +:+ "/".

Section WithEnv.
Variable E : Env.

(** The search path taken when the direct URL is not accepted. *)
Definition search_fallback (district_name state : string) : M (option string) :=
  let search_url := base_url +:+ "/search/k12/" in
  let params := [("q", district_name +:+ " " +:+ state)] in
  source <- BaseScraper.get_page_source E delay (search_url +:+ query_string params) ;;
  match if_truthy source with
  | None => ret None
  | Some source =>
      let soup := BaseScraper.BeautifulSoup E source in
      let district_links := Soup.find_all "a" "href" district_href soup in
      ret (BaseScraper.first_matching_link E base_url district_name district_links)
  end.

(** [if source and "404" not in source] *)
Definition accepts (source : option string) : bool :=
  match if_truthy source with
  | Some s => negb (Str.contains "404" s)
  | None => false
  end.

Definition search_district (district_name state : string) : M (option string) :=
  let potential_url := potential_url district_name state in
  source <- BaseScraper.get_page_source E delay potential_url ;;
  if accepts source then ret (Some potential_url)
  else search_fallback district_name state.

Definition extract_grade (soup : Soup.node) (data : gmap string value) : gmap string value :=
  match Soup.find "div" "class" grade_class soup with
  | Some grade_elem =>
      let grade_text := Str.strip Str.is_space (Soup.get_text grade_elem) in
      match Re.search grade grade_text with
      | Some grade_match => <["niche_rating" := VStr grade_match]> data
      | None => data
      end
  | None => data
  end.

Definition scrape_district_data (district_url : string) : M (gmap string value) :=
  source <- BaseScraper.get_page_source E delay district_url ;;
  match if_truthy source with
  | None => ret ∅
  | Some source =>
      let soup := BaseScraper.BeautifulSoup E source in
      let data := ∅ in
      let data := extract_grade soup data in
      let data := <["niche_url" := VStr district_url]> data in
      ret data
  end.
End WithEnv.
End NicheScraper.

(** ** class SchoolDiggerScraper *)
Module SchoolDiggerScraper.
Definition delay : nat := 1000.
Definition base_url : string := "https://www.schooldigger.com".

(** [r'/go/PA/district\.aspx'] *)
Definition district_href : Re.regex := Re.lit "/go/PA/district.aspx".
(** [r'rank|rating'] with [re.I] *)
Definition ranking_text : Re.regex := Re.Alt (Re.ilit "rank") (Re.ilit "rating").
(** [r'(\d+)'] *)
Definition digits : Re.regex := Re.Plus Re.digit.

Section WithEnv.
Variable E : Env.

(** The [state] argument is accepted and never read. *)
Definition search_district (district_name state : string) : M (option string) :=
  let search_url := base_url +:+ "/go/PA/search.aspx" in
  let params := [("searchterm", district_name); ("searchtype", "district")] in
  source <- BaseScraper.get_page_source E delay (search_url +:+ query_string params) ;;
  match if_truthy source with
  | None => ret None
  | Some source =>
      let soup := BaseScraper.BeautifulSoup E source in
      let district_links := Soup.find_all "a" "href" district_href soup in
      ret (BaseScraper.first_matching_link E base_url district_name district_links)
  end.

Definition extract_ranking (soup : Soup.node) (data : gmap string value) : gmap string value :=
  match Soup.find_text ranking_text soup with
  | Some (ranking_elem, parent) =>
      if Str.truthy ranking_elem then
        let ranking_text := Soup.get_text parent in
        match Re.search digits ranking_text with
        | Some ranking_match => <["schooldigger_rating" := VStr ranking_match]> data
        | None => data
        end
      else data
  | None => data
  end.

Definition scrape_district_data (district_url : string) : M (gmap string value) :=
  source <- BaseScraper.get_page_source E delay district_url ;;
  match if_truthy source with
  | None => ret ∅
  | Some source =>
      let soup := BaseScraper.BeautifulSoup E source in
      let data := ∅ in
      let data := extract_ranking soup data in
      let data := <["schooldigger_url" := VStr district_url]> data in
      ret data
  end.
End WithEnv.
End SchoolDiggerScraper.

(** ** class PASchoolDistrictScraper *)
Module PASchoolDistrictScraper.
Section WithEnv.
Variable E : Env.

Definition save_results (results : list SchoolDistrictData) (filename : string) : M unit :=
  to_csv filename results ;;
  emit (EvLogSaved (length results) filename).

(** [SchoolDistrictData(district_name=..., county="", last_updated=...)] *)
Definition new_record (district_name now : string) : SchoolDistrictData :=
  mkSchoolDistrictData district_name "" None None None None None None None None (Some now).

Definition scrape_greatschools (district_name : string)
    (district_data : SchoolDistrictData) : M SchoolDistrictData :=
  gs_url <- GreatSchoolsScraper.search_district E district_name "PA" ;;
  match if_truthy gs_url with
  | Some gs_url =>
      gs_data <- GreatSchoolsScraper.scrape_district_data E gs_url ;;
      let district_data := set_greatschools_rating (gs_data !! "greatschools_rating") district_data in
      let district_data := set_greatschools_url (gs_data !! "greatschools_url") district_data in
      let district_data := set_enrollment (gs_data !! "enrollment") district_data in
      let district_data := set_student_teacher_ratio (gs_data !! "student_teacher_ratio") district_data in
      ret district_data
  | None => ret district_data
  end.

Definition scrape_niche (district_name : string)
    (district_data : SchoolDistrictData) : M SchoolDistrictData :=
  niche_url <- NicheScraper.search_district E district_name "pennsylvania" ;;
  match if_truthy niche_url with
  | Some niche_url =>
      niche_data <- NicheScraper.scrape_district_data E niche_url ;;
      let district_data := set_niche_rating (niche_data !! "niche_rating") district_data in
      let district_data := set_niche_url (niche_data !! "niche_url") district_data in
      ret district_data
  | None => ret district_data
  end.

Definition scrape_schooldigger (district_name : string)
    (district_data : SchoolDistrictData) : M SchoolDistrictData :=
  sd_url <- SchoolDiggerScraper.search_district E district_name "PA" ;;
  match if_truthy sd_url with
  | Some sd_url =>
      sd_data <- SchoolDiggerScraper.scrape_district_data E sd_url ;;
      let district_data := set_schooldigger_rating (sd_data !! "schooldigger_rating") district_data in
      let district_data := set_schooldigger_url (sd_data !! "schooldigger_url") district_data in
      ret district_data
  | None => ret district_data
  end.

(** The record built by one pass of the loop, up to [results.append]. *)
Definition scrape_district (total i : nat) (district_name : string) : M SchoolDistrictData :=
  emit (EvLogProcessing district_name (i + 1) total) ;;
  now <- timestamp_now E ;;
  let district_data := new_record district_name now in
  district_data <- scrape_greatschools district_name district_data ;;
  district_data <- scrape_niche district_name district_data ;;
  district_data <- scrape_schooldigger district_name district_data ;;
  ret district_data.

(** [for i, district_name in enumerate(district_names)], from index [i]
    on, with the list [results] accumulated so far. *)
Fixpoint scrape_loop (output_file : string) (total : nat)
    (district_names : list string) (i : nat)
    (results : list SchoolDistrictData) : M (list SchoolDistrictData) :=
  match district_names with
  | [] => ret results
  | district_name :: rest =>
      district_data <- scrape_district total i district_name ;;
      let results := results ++ [district_data] in
      (if ((i + 1) mod 10 =? 0)%nat
       then save_results results ("temp_" +:+ output_file)
       else ret tt) ;;
      scrape_loop output_file total rest (S i) results
  end.

Definition scrape_all_districts (district_names : list string)
    (output_file : string) : M (list SchoolDistrictData) :=
  results <- scrape_loop output_file (length district_names) district_names 0 [] ;;
  save_results results output_file ;;
  emit (EvLogComplete output_file) ;;
  ret results.

End WithEnv.
End PASchoolDistrictScraper.


(** ** A mocked environment

    Fixed pages, parsed by table lookup, for running the definitions on
    concrete inputs. *)
Module Mock.

Fixpoint lookup {A : Type} (key : string) (table : list (string * A)) : option A :=
  match table with
  | [] => None
  | (k, v) :: rest => if String.eqb k key then Some v else lookup key rest
  end.

(** Every URL outside the table is unreachable. *)
Definition serve (pages : list (string * http_outcome)) : nat -> string -> http_outcome :=
  fun _ url => default (Fails ConnectionError) (lookup url pages).

Definition parse (trees : list (string * list Soup.node)) : string -> list Soup.node :=
  fun source => default [] (lookup source trees).

(** Resolution of an absolute path against a base without path. *)
Definition join_path (base href : string) : string := base +:+ href.

Definition stamp (n : nat) : string := "2024-01-01T00:00:0" +:+ String (Str.hex_digit n) "".

Definition env (pages : list (string * http_outcome))
    (trees : list (string * list Soup.node)) : Env :=
  mkEnv (serve pages) stamp (parse trees) join_path.

Definition start : world := mkWorld 0 0 ∅ [].

Definition offline : Env := env [] [].

(** A Niche district page whose grade element reads "Excellent". *)
Definition excellent_url : string := "https://www.niche.com/k12/d/pittsburgh-pennsylvania/".
Definition excellent_source : string := "<div class='grade'>Excellent</div>".
Definition excellent : Env :=
  env [(excellent_url, Responds 200 excellent_source)]
      [(excellent_source,
        [Soup.Tag "div" [("class", "grade")] [Soup.NavigableString "Excellent"]])].


(** A Niche district page exists for a district of another state. *)
Definition ohio_url : string := "https://www.niche.com/k12/d/columbus-city-ohio/".
Definition ohio : Env := env [(ohio_url, Responds 200 "<html>Columbus</html>")] [].

(** A GreatSchools result page with one district link. *)
Definition gs_search_url : string :=
  "https://www.greatschools.org/search/search.page?q=Pittsburgh%20School%20District&state=OH&level=district".
Definition gs_results_source : string := "<a href='/pennsylvania/pittsburgh/pittsburgh-school-district/'>Pittsburgh School District</a>".
Definition gs_results : Env :=
  env [(gs_search_url, Responds 200 gs_results_source)]
      [(gs_results_source,
        [Soup.Tag "a" [("href", "/pennsylvania/pittsburgh/pittsburgh-school-district/")]
           [Soup.NavigableString "Pittsburgh School District"]])].

(** Twenty-three distinct district names. *)
Definition names23 : list string :=
  ["Abington"; "Bensalem"; "Chester"; "Derry"; "Easton"; "Franklin";
   "Gettysburg"; "Hazleton"; "Indiana"; "Jeannette"; "Kiski"; "Lancaster";
   "Mars"; "Norristown"; "Oxford"; "Pittsburgh"; "Quakertown"; "Reading";
   "Scranton"; "Tyrone"; "Uniontown"; "Valley Grove"; "Warren"].

(** Pages of the three sites for one district. *)
Definition pittsburgh : string := "Pittsburgh School District".

Definition gs_pa_search_url : string :=
  "https://www.greatschools.org/search/search.page?q=Pittsburgh%20School%20District&state=PA&level=district".
Definition gs_district_url : string :=
  "https://www.greatschools.org/pennsylvania/pittsburgh/pittsburgh-school-district/".
Definition gs_district_source : string :=
  "<div class='rating'>Rating 8/10</div><p>20,350 students</p><p>Student teacher ratio 14:1</p>".
Definition gs_pages : list (string * http_outcome) :=
  [(gs_pa_search_url, Responds 200 gs_results_source);
   (gs_district_url, Responds 200 gs_district_source)].

Definition niche_district_source : string := "<div class='grade'>B+</div>".
Definition niche_pages : list (string * http_outcome) :=
  [(excellent_url, Responds 200 niche_district_source)].

Definition sd_search_url : string :=
  "https://www.schooldigger.com/go/PA/search.aspx?searchterm=Pittsburgh%20School%20District&searchtype=district".
Definition sd_results_source : string :=
  "<a href='/go/PA/district.aspx?id=1'>Pittsburgh School District</a>".
Definition sd_district_url : string :=
  "https://www.schooldigger.com/go/PA/district.aspx?id=1".
Definition sd_district_source : string := "<p>Rank 12 of 500</p>".
Definition sd_pages : list (string * http_outcome) :=
  [(sd_search_url, Responds 200 sd_results_source);
   (sd_district_url, Responds 200 sd_district_source)].

Definition trees : list (string * list Soup.node) :=
  [(gs_results_source,
    [Soup.Tag "a" [("href", "/pennsylvania/pittsburgh/pittsburgh-school-district/")]
       [Soup.NavigableString "Pittsburgh School District"]]);
   (gs_district_source,
    [Soup.Tag "div" [("class", "rating")] [Soup.NavigableString "Rating 8/10"];
     Soup.Tag "p" [] [Soup.NavigableString "20,350 students"];
     Soup.Tag "p" [] [Soup.NavigableString "Student teacher ratio 14:1"]]);
   (niche_district_source,
    [Soup.Tag "div" [("class", "grade")] [Soup.NavigableString "B+"]]);
   (sd_results_source,
    [Soup.Tag "a" [("href", "/go/PA/district.aspx?id=1")]
       [Soup.NavigableString "Pittsburgh School District"]]);
   (sd_district_source,
    [Soup.Tag "p" [] [Soup.NavigableString "Rank 12 of 500"]])].

(** All three sites reachable; GreatSchools alone; Niche alone. *)
Definition reachable : Env := env (gs_pages ++ niche_pages ++ sd_pages) trees.



(** A world in which an earlier run left its files and its log. *)
Definition leftover : world :=
  mkWorld 0 0
    (<["temp_out.csv" := [PASchoolDistrictScraper.new_record "Abington" "2023-12-31T23:59:59"]]>
       (<["out.csv" := [PASchoolDistrictScraper.new_record "Abington" "2023-12-31T23:59:59"]]> ∅))
    [EvLogComplete "out.csv"].

End Mock.

(** ** Vocabulary of the statements *)

(** What a caller of [get_page_source] receives for an outcome of the
    GET: the body, unless the transport raised or the status is one that
    [raise_for_status] rejects. *)
Definition page_text (o : http_outcome) : option string :=
  match o with
  | Fails _ => None
  | Responds st body =>
      if ((400 <=? st) && (st <? 600))%Z then None else Some body
  end.

(** Number of GET requests recorded in a trace. *)
Fixpoint count_gets (t : list event) : nat :=
  match t with
  | [] => 0
  | EvGet _ _ :: t' => S (count_gets t')
  | _ :: t' => count_gets t'
  end.

(** The CSV files written, oldest first. *)
Fixpoint csv_writes (t : list event) : list (string * list SchoolDistrictData) :=
  match t with
  | [] => []
  | EvToCsv filename rows :: t' => (filename, rows) :: csv_writes t'
  | _ :: t' => csv_writes t'
  end.

(** The passes of the loop that were started, oldest first: district
    name, position as logged, and announced total. *)
Fixpoint passes (t : list event) : list (string * nat * nat) :=
  match t with
  | [] => []
  | EvLogProcessing name index total :: t' => (name, index, total) :: passes t'
  | _ :: t' => passes t'
  end.

(** A computation that raises nothing, returns a value satisfying [post]
    and leaves the files, the record of CSV writes and the record of
    passes as they were. *)
Definition quiet {A} (m : M A) (post : A -> Prop) : Prop :=
  forall w, exists a w',
    m w = (Ok a, w') /\ post a /\
    files w' = files w /\
    csv_writes (trace w') = csv_writes (trace w) /\
    passes (trace w') = passes (trace w).

(** The world [get_page_source] leaves behind. *)
Definition after_fetch (delay : nat) (url : string) (o : http_outcome) (w : world) : world :=
  let t := trace w ++ [EvSleep delay] ++ [EvGet url 10] in
  mkWorld (S (gets w)) (ticks w) (files w)
    match o with
    | Fails e => t ++ [EvLogError url e]
    | Responds st body =>
        if ((400 <=? st) && (st <? 600))%Z
        then t ++ [EvLogError url (HTTPError st)] else t
    end.

Definition is_grade_letter : ascii -> bool := Str.in_range 65 70.
Definition is_sign (c : ascii) : bool := Ascii.eqb c "+"%char || Ascii.eqb c "-"%char.

(** A grade token: one capital letter A-F, alone or followed by one sign. *)
Definition grade_token (g : string) : bool :=
  match g with
  | String c EmptyString => is_grade_letter c
  | String c (String d EmptyString) => is_grade_letter c && is_sign d
  | _ => false
  end.

(** The first capital A-F of a text, with the sign that follows it when
    there is one. *)
Fixpoint first_grade (s : string) : option string :=
  match s with
  | EmptyString => None
  | String c s' =>
      if is_grade_letter c then
        Some match s' with
             | String d _ =>
                 if is_sign d then String c (String d EmptyString)
                 else String c EmptyString
             | EmptyString => String c EmptyString
             end
      else first_grade s'
  end.

(** [d'] is [d] with source fields filled in: name, county and timestamp
    are those of [d]. *)
Definition same_identity (d d' : SchoolDistrictData) : Prop :=
  district_name d' = district_name d /\
  county d' = county d /\
  last_updated d' = last_updated d.








(** The language of a pattern: the texts it matches in full. *)
Inductive in_language : Re.regex -> string -> Prop :=
| lang_eps : in_language Re.Eps ""
| lang_chr p c : p c = true -> in_language (Re.Chr p) (String c "")
| lang_seq r1 r2 m1 m2 :
    in_language r1 m1 -> in_language r2 m2 -> in_language (Re.Seq r1 r2) (m1 +:+ m2)
| lang_alt_l r1 r2 m : in_language r1 m -> in_language (Re.Alt r1 r2) m
| lang_alt_r r1 r2 m : in_language r2 m -> in_language (Re.Alt r1 r2) m
| lang_opt_some r m : in_language r m -> in_language (Re.Opt r) m
| lang_opt_none r : in_language (Re.Opt r) ""
| lang_star_nil r : in_language (Re.Star r) ""
| lang_star_cons r m1 m2 :
    in_language r m1 -> in_language (Re.Star r) m2 -> in_language (Re.Star r) (m1 +:+ m2).

(** Every character of a string satisfies a predicate. *)
Fixpoint all_chars (p : ascii -> bool) (s : string) : bool :=
  match s with
  | EmptyString => true
  | String c s' => p c && all_chars p s'
  end.

(** A non-empty run of decimal digits: the texts [int] accepts. *)
Definition digit_string (s : string) : bool :=
  Str.truthy s && all_chars Str.is_digit s.





(** What is left of [s] after a prefix as long as [p]. *)
Fixpoint after_prefix (p s : string) : string :=
  match p, s with
  | String _ p', String _ s' => after_prefix p' s'
  | _, _ => s
  end.

(** [p] is a prefix of [s], characters compared by [same]. *)
Fixpoint prefix_by (same : ascii -> ascii -> bool) (p s : string) : bool :=
  match p, s with
  | EmptyString, _ => true
  | String a p', String b s' => same a b && prefix_by same p' s'
  | String _ _, EmptyString => false
  end.

(** A tag named [name] whose attribute [key] contains one of [words]. *)
Definition tag_with_word (name key : string) (words : list string) (n : Soup.node) : bool :=
  match n with
  | Soup.Tag nm attrs _ =>
      String.eqb nm name &&
      match Soup.attr key attrs with
      | Some v => existsb (fun word => Str.contains word v) words
      | None => false
      end
  | Soup.NavigableString _ => false
  end.


(** [first], later on the same line [second]. *)
Definition has_both_on_a_line (first second h : string) : Prop :=
  exists before between after,
    h = before +:+ first +:+ between +:+ second +:+ after /\
    all_chars (fun c => negb (Ascii.eqb c "010"%char)) between = true.

(** The last character of a string is [c]. *)
Fixpoint ends_with_char (c : ascii) (s : string) : bool :=
  match s with
  | EmptyString => false
  | String x EmptyString => Ascii.eqb x c
  | String _ s' => ends_with_char c s'
  end.

(** A link whose text contains the district name, letter case ignored:
    the test of the loop that ends each [search_district]. *)
Definition link_names (district_name : string) (link : Soup.node) : bool :=
  Str.contains (Str.lower district_name) (Str.lower (Soup.get_text link)).

(** Rate limiting, read off a trace: every GET carries the 10-second
    timeout and comes directly after a sleep of at least one second.
    [slept] tells whether the event before was such a sleep. *)
Fixpoint polite_from (slept : bool) (t : list event) : bool :=
  match t with
  | [] => true
  | EvSleep milliseconds :: t' => polite_from (1000 <=? milliseconds)%nat t'
  | EvGet _ timeout_seconds :: t' =>
      slept && (timeout_seconds =? 10)%nat && polite_from false t'
  | _ :: t' => polite_from false t'
  end.

Definition polite (t : list event) : bool := polite_from false t.

(** From [w] to [w']: the clock was not read, between [lo] and [hi] GETs
    were issued, and a polite trace stayed polite. *)
Definition fetches (lo hi : nat) (w w' : world) : Prop :=
  ticks w' = ticks w /\
  count_gets (trace w) + lo <= count_gets (trace w') /\
  count_gets (trace w') <= count_gets (trace w) + hi /\
  (polite (trace w) = true -> polite (trace w') = true).

(** The readings of the clock numbered [first], [first + 1], ... *)
Definition stamps (E : Env) (first count : nat) : list (option string) :=
  (fun n => Some (clock E n)) <$> seq first count.












(** Two worlds with the same request and clock counters. *)
Definition same_counters (w1 w2 : world) : Prop :=
  gets w1 = gets w2 /\ ticks w1 = ticks w2.

(** A computation whose value depends on the world through the two
    counters only, and that leaves equal counters equal. *)
Definition reads_counters_only {A} (m : M A) : Prop :=
  forall w1 w2, same_counters w1 w2 ->
    exists a w1' w2',
      m w1 = (Ok a, w1') /\ m w2 = (Ok a, w2') /\ same_counters w1' w2'.

(** ** The fetcher *)

Lemma count_gets_app (t1 t2 : list event) :
  count_gets (t1 ++ t2) = count_gets t1 + count_gets t2.
Proof.
  induction t1 as [|e t1 IH]; simpl; [reflexivity|].
  destruct e; simpl; rewrite IH; reflexivity.
Qed.

Lemma csv_writes_app (t1 t2 : list event) :
  csv_writes (t1 ++ t2) = csv_writes t1 ++ csv_writes t2.
Proof.
  induction t1 as [|e t1 IH]; simpl; [reflexivity|].
  destruct e; simpl; rewrite IH; reflexivity.
Qed.

Lemma passes_app (t1 t2 : list event) :
  passes (t1 ++ t2) = passes t1 ++ passes t2.
Proof.
  induction t1 as [|e t1 IH]; simpl; [reflexivity|].
  destruct e; simpl; rewrite IH; reflexivity.
Qed.

Lemma get_page_source_run (E : Env) (delay : nat) (url : string) (w : world) :
  BaseScraper.get_page_source E delay url w =
    (Ok (page_text (net E (gets w) url)),
     after_fetch delay url (net E (gets w) url) w).
Proof.
  unfold BaseScraper.get_page_source, try_except, bind, sleep, emit,
    session_get, after_fetch, page_text; simpl.
  destruct (net E (gets w) url) as [e|st body]; simpl.
  - rewrite <- !app_assoc. reflexivity.
  - unfold raise_for_status; simpl.
    destruct ((400 <=? st) && (st <? 600))%Z; simpl;
      rewrite <- ?app_assoc; reflexivity.
Qed.


Lemma after_fetch_count_gets delay url o w :
  count_gets (trace (after_fetch delay url o w)) = S (count_gets (trace w)).
Proof.
  unfold after_fetch; simpl.
  destruct o as [e|st body]; [|destruct ((400 <=? st) && (st <? 600))%Z];
    rewrite ?count_gets_app; simpl; lia.
Qed.

Lemma after_fetch_csv_writes delay url o w :
  csv_writes (trace (after_fetch delay url o w)) = csv_writes (trace w).
Proof.
  unfold after_fetch; simpl.
  destruct o as [e|st body]; [|destruct ((400 <=? st) && (st <? 600))%Z];
    rewrite ?csv_writes_app; simpl; rewrite ?app_nil_r; reflexivity.
Qed.

Lemma after_fetch_passes delay url o w :
  passes (trace (after_fetch delay url o w)) = passes (trace w).
Proof.
  unfold after_fetch; simpl.
  destruct o as [e|st body]; [|destruct ((400 <=? st) && (st <? 600))%Z];
    rewrite ?passes_app; simpl; rewrite ?app_nil_r; reflexivity.
Qed.

(** C7, as the code has it.  [get_page_source] never raises: for every
    environment, delay, URL and world it returns a value.  That value is
    absent whenever the request raised (connection error, timeout, any
    exception) and whenever the final status is a 4xx or 5xx code; for
    every other status it is the response body.  One call issues exactly
    one GET: no retry. *)
Theorem get_page_source_never_raises (E : Env) (delay : nat) (url : string) (w : world) :
  let w' := snd (BaseScraper.get_page_source E delay url w) in
  fst (BaseScraper.get_page_source E delay url w) =
    Ok match net E (gets w) url with
       | Fails _ => None
       | Responds st body =>
           if ((400 <=? st) && (st <? 600))%Z then None else Some body
       end /\
  count_gets (trace w') = S (count_gets (trace w)) /\
  gets w' = S (gets w).
Proof.
  intros w'. subst w'. rewrite get_page_source_run; simpl.
  split; [reflexivity|].
  split; [apply after_fetch_count_gets | reflexivity].
Qed.

(** C7 as stated fails: a response whose final status is 304, which is
    not a 2xx status, is returned to the caller with its body. *)
Lemma get_page_source_non_2xx_counterexample :
  ~ (forall (E : Env) (delay : nat) (url : string) (w : world) (st : Z) (body : string),
       net E (gets w) url = Responds st body ->
       ~ (200 <= st < 300)%Z ->
       fst (BaseScraper.get_page_source E delay url w) = Ok None).
Proof.
  intros H.
  specialize (H (Mock.env [("u", Responds 304 "cached")] []) 1000 "u" Mock.start
                304%Z "cached" eq_refl).
  assert (Hst : ~ (200 <= 304 < 300)%Z) by lia.
  specialize (H Hst). vm_compute in H. discriminate H.
Qed.

(** ** Niche: the grade pattern *)

Lemma match_at_grade (s : string) :
  Re.match_at NicheScraper.grade s =
    match s with
    | EmptyString => None
    | String c s' => if is_grade_letter c then first_grade s else None
    end.
Proof.
  destruct s as [|c s']; [reflexivity|].
  unfold Re.match_at, NicheScraper.grade; simpl.
  fold (is_grade_letter c).
  destruct (is_grade_letter c); [|reflexivity].
  destruct s' as [|d s'']; simpl; [reflexivity|].
  fold (is_sign d). destruct (is_sign d); simpl.
  - replace (S (S (String.length s'')) - String.length s'')%nat with 2%nat by lia.
    simpl. destruct s''; reflexivity.
  - replace (S (String.length s'') - String.length s'')%nat with 1%nat by lia.
    reflexivity.
Qed.

Lemma search_grade (s : string) : Re.search NicheScraper.grade s = first_grade s.
Proof.
  induction s as [|c s' IH]; [reflexivity|].
  cbn [Re.search]. rewrite match_at_grade. cbn [first_grade].
  destruct (is_grade_letter c); [reflexivity | exact IH].
Qed.

Lemma first_grade_token (s g : string) :
  first_grade s = Some g -> grade_token g = true.
Proof.
  induction s as [|c s' IH]; simpl; [discriminate|].
  destruct (is_grade_letter c) eqn:Hc; [|exact IH].
  intros [= <-]. destruct s' as [|d s'']; simpl; [exact Hc|].
  destruct (is_sign d) eqn:Hd; simpl; rewrite Hc; [exact Hd | reflexivity].
Qed.

Lemma extract_grade_lookup (soup : Soup.node) :
  NicheScraper.extract_grade soup ∅ !! "niche_rating" =
    match Soup.find "div" "class" NicheScraper.grade_class soup with
    | Some grade_elem =>
        VStr <$> first_grade (Str.strip Str.is_space (Soup.get_text grade_elem))
    | None => None
    end.
Proof.
  unfold NicheScraper.extract_grade.
  destruct (Soup.find _ _ _ soup) as [elem|]; [|apply lookup_empty].
  rewrite search_grade.
  destruct (first_grade _) as [g|]; simpl;
    [apply lookup_insert_eq | apply lookup_empty].
Qed.

Lemma niche_scrape_run (E : Env) (url : string) (w : world) :
  NicheScraper.scrape_district_data E url w =
    (Ok match if_truthy (page_text (net E (gets w) url)) with
        | None => ∅
        | Some source =>
            <["niche_url" := VStr url]>
              (NicheScraper.extract_grade (BaseScraper.BeautifulSoup E source) ∅)
        end,
     after_fetch NicheScraper.delay url (net E (gets w) url) w).
Proof.
  unfold NicheScraper.scrape_district_data, bind.
  rewrite get_page_source_run.
  destruct (if_truthy _); reflexivity.
Qed.

(** C1, as the code has it.  The Niche extractor returns a dictionary for
    every page.  When [niche_rating] is set, it is a grade token: one
    capital letter A-F, alone or followed by [+] or [-].  The token is the
    first one that occurs in the stripped text of the grade element, so
    [niche_rating] is left out only when there is no grade element or its
    text has no capital A-F. *)
Theorem niche_rating_is_first_grade_token (E : Env) (url : string) (w : world) :
  exists data,
    fst (NicheScraper.scrape_district_data E url w) = Ok data /\
    match data !! "niche_rating" with
    | Some v => exists g, v = VStr g /\ grade_token g = true
    | None => True
    end /\
    data !! "niche_rating" =
      match if_truthy (page_text (net E (gets w) url)) with
      | None => None
      | Some source =>
          match Soup.find "div" "class" NicheScraper.grade_class
                  (BaseScraper.BeautifulSoup E source) with
          | Some grade_elem =>
              VStr <$> first_grade (Str.strip Str.is_space (Soup.get_text grade_elem))
          | None => None
          end
      end.
Proof.
  rewrite niche_scrape_run; simpl. eexists; split; [reflexivity|].
  assert (Hlookup :
    match if_truthy (page_text (net E (gets w) url)) with
    | None => ∅
    | Some source =>
        <["niche_url" := VStr url]>
          (NicheScraper.extract_grade (BaseScraper.BeautifulSoup E source) ∅)
    end !! "niche_rating" =
    match if_truthy (page_text (net E (gets w) url)) with
    | None => None
    | Some source =>
        match Soup.find "div" "class" NicheScraper.grade_class
                (BaseScraper.BeautifulSoup E source) with
        | Some grade_elem =>
            VStr <$> first_grade (Str.strip Str.is_space (Soup.get_text grade_elem))
        | None => None
        end
    end).
  { destruct (if_truthy _) as [source|]; [|apply lookup_empty].
    rewrite lookup_insert_ne by discriminate. apply extract_grade_lookup. }
  split; [|exact Hlookup].
  rewrite Hlookup.
  destruct (if_truthy _) as [source|]; [|exact I].
  destruct (Soup.find _ _ _ _) as [elem|]; [|exact I].
  destruct (first_grade _) as [g|] eqn:Hg; simpl; [|exact I].
  exists g. split; [reflexivity | eapply first_grade_token; exact Hg].
Qed.

(** C1 as stated fails: a grade element whose text is the word
    "Excellent", which has several characters and is no grade token,
    yields the rating "E". *)
Lemma niche_rating_excellent_counterexample :
  ~ (forall (E : Env) (url : string) (w : world) (source : string)
            (grade_elem : Soup.node) (data : gmap string value),
       if_truthy (page_text (net E (gets w) url)) = Some source ->
       Soup.find "div" "class" NicheScraper.grade_class
         (BaseScraper.BeautifulSoup E source) = Some grade_elem ->
       (1 < String.length (Soup.get_text grade_elem))%nat ->
       grade_token (Soup.get_text grade_elem) = false ->
       fst (NicheScraper.scrape_district_data E url w) = Ok data ->
       data !! "niche_rating" = None).
Proof.
  intros H.
  specialize (H Mock.excellent Mock.excellent_url Mock.start Mock.excellent_source
                (Soup.Tag "div" [("class", "grade")] [Soup.NavigableString "Excellent"])
                (<["niche_url" := VStr Mock.excellent_url]> {["niche_rating" := VStr "E"]})).
  assert (Hlen : (1 < String.length "Excellent")%nat) by (simpl; lia).
  specialize (H eq_refl eq_refl Hlen eq_refl eq_refl).
  rewrite lookup_insert_ne in H by discriminate.
  rewrite lookup_singleton_eq in H. discriminate H.
Qed.

(** ** Locating a district page *)

Lemma first_matching_link_sound (E : Env) (base name : string)
    (links : list Soup.node) (u : string) :
  BaseScraper.first_matching_link E base name links = Some u ->
  exists link, In link links /\ u = urljoin E base (Soup.href link).
Proof.
  induction links as [|link rest IH]; simpl; [discriminate|].
  destruct (Str.contains _ _).
  - intros [= <-]. exists link. split; [left|]; reflexivity.
  - intros H. destruct (IH H) as (l & Hin & Hu).
    exists l. split; [right; exact Hin | exact Hu].
Qed.

Lemma find_all_href_found (r : Re.regex) (soup link : Soup.node) :
  In link (Soup.find_all "a" "href" r soup) -> Re.found r (Soup.href link) = true.
Proof.
  unfold Soup.find_all. intros Hin.
  apply list_elem_of_In, list_elem_of_filter in Hin. destruct Hin as [Hm _].
  destruct link as [s|nm attrs cs]; simpl in Hm; [discriminate|].
  apply andb_prop in Hm. destruct Hm as [_ Hm]. simpl.
  destruct (Soup.attr "href" attrs) as [v|]; [exact Hm | discriminate].
Qed.

Lemma gs_search_run (E : Env) (name state : string) (w : world) :
  let url := GreatSchoolsScraper.base_url +:+ "/search/search.page" +:+
             query_string [("q", name); ("state", state); ("level", "district")] in
  GreatSchoolsScraper.search_district E name state w =
    (Ok match if_truthy (page_text (net E (gets w) url)) with
        | None => None
        | Some source =>
            BaseScraper.first_matching_link E GreatSchoolsScraper.base_url name
              (Soup.find_all "a" "href" GreatSchoolsScraper.district_href
                 (BaseScraper.BeautifulSoup E source))
        end,
     after_fetch GreatSchoolsScraper.delay url (net E (gets w) url) w).
Proof.
  intros url. unfold GreatSchoolsScraper.search_district, bind.
  rewrite get_page_source_run. fold url.
  destruct (if_truthy _); reflexivity.
Qed.

Lemma niche_fallback_run (E : Env) (name state : string) (w : world) :
  let url := NicheScraper.base_url +:+ "/search/k12/" +:+
             query_string [("q", name +:+ " " +:+ state)] in
  NicheScraper.search_fallback E name state w =
    (Ok match if_truthy (page_text (net E (gets w) url)) with
        | None => None
        | Some source =>
            BaseScraper.first_matching_link E NicheScraper.base_url name
              (Soup.find_all "a" "href" NicheScraper.district_href
                 (BaseScraper.BeautifulSoup E source))
        end,
     after_fetch NicheScraper.delay url (net E (gets w) url) w).
Proof.
  intros url. unfold NicheScraper.search_fallback, bind.
  rewrite get_page_source_run. fold url.
  destruct (if_truthy _); reflexivity.
Qed.

Lemma sd_search_run (E : Env) (name state : string) (w : world) :
  let url := SchoolDiggerScraper.base_url +:+ "/go/PA/search.aspx" +:+
             query_string [("searchterm", name); ("searchtype", "district")] in
  SchoolDiggerScraper.search_district E name state w =
    (Ok match if_truthy (page_text (net E (gets w) url)) with
        | None => None
        | Some source =>
            BaseScraper.first_matching_link E SchoolDiggerScraper.base_url name
              (Soup.find_all "a" "href" SchoolDiggerScraper.district_href
                 (BaseScraper.BeautifulSoup E source))
        end,
     after_fetch SchoolDiggerScraper.delay url (net E (gets w) url) w).
Proof.
  intros url. unfold SchoolDiggerScraper.search_district, bind.
  rewrite get_page_source_run. fold url.
  destruct (if_truthy _); reflexivity.
Qed.

Lemma niche_search_run (E : Env) (name state : string) (w : world) :
  let url := NicheScraper.potential_url name state in
  let w1 := after_fetch NicheScraper.delay url (net E (gets w) url) w in
  NicheScraper.search_district E name state w =
    if NicheScraper.accepts (page_text (net E (gets w) url))
    then (Ok (Some url), w1)
    else NicheScraper.search_fallback E name state w1.
Proof.
  intros url w1. unfold NicheScraper.search_district, bind.
  rewrite get_page_source_run. fold url. fold w1.
  destruct (NicheScraper.accepts _); reflexivity.
Qed.



(** C10, as the code has it.  Whatever the [state] argument, a URL
    returned by the GreatSchools locate step is [urljoin] of the base URL
    and the href of an anchor of the result page, and that href was
    searched successfully by the fixed pattern
    [/pennsylvania/.*-district/].  For Niche the same holds, with the
    pattern [/k12/d/.*pennsylvania], on the search path only: when the
    guessed URL is accepted it is returned as built from the slug and the
    [state] argument, with no link filtering. *)
Theorem locate_pennsylvania_links (E : Env) (name state : string) (w : world) (u : string) :
  (fst (GreatSchoolsScraper.search_district E name state w) = Ok (Some u) ->
   exists link,
     Re.found GreatSchoolsScraper.district_href (Soup.href link) = true /\
     u = urljoin E GreatSchoolsScraper.base_url (Soup.href link)) /\
  (fst (NicheScraper.search_district E name state w) = Ok (Some u) ->
   (NicheScraper.accepts
      (page_text (net E (gets w) (NicheScraper.potential_url name state))) = true /\
    u = NicheScraper.potential_url name state) \/
   (NicheScraper.accepts
      (page_text (net E (gets w) (NicheScraper.potential_url name state))) = false /\
    exists link,
      Re.found NicheScraper.district_href (Soup.href link) = true /\
      u = urljoin E NicheScraper.base_url (Soup.href link))).
Proof.
  split.
  - rewrite gs_search_run; simpl.
    destruct (if_truthy _) as [source|]; [|discriminate].
    intros [= H]. apply first_matching_link_sound in H.
    destruct H as (link & Hin & Hu). exists link.
    split; [eapply find_all_href_found; exact Hin | exact Hu].
  - rewrite niche_search_run.
    destruct (NicheScraper.accepts _); simpl.
    + intros [= <-]. left. split; reflexivity.
    + rewrite niche_fallback_run; simpl.
      destruct (if_truthy _) as [source|]; [|discriminate].
      intros [= H]. apply first_matching_link_sound in H.
      destruct H as (link & Hin & Hu). right. split; [reflexivity|].
      exists link. split; [eapply find_all_href_found; exact Hin | exact Hu].
Qed.

Lemma locate_pennsylvania_links_witness :
  (fst (GreatSchoolsScraper.search_district Mock.gs_results
          "Pittsburgh School District" "OH" Mock.start) =
     Ok (Some "https://www.greatschools.org/pennsylvania/pittsburgh/pittsburgh-school-district/") /\
   exists link,
     Re.found GreatSchoolsScraper.district_href (Soup.href link) = true /\
     "https://www.greatschools.org/pennsylvania/pittsburgh/pittsburgh-school-district/" =
       urljoin Mock.gs_results GreatSchoolsScraper.base_url (Soup.href link)) /\
  (fst (NicheScraper.search_district Mock.ohio
          "Columbus City School District" "ohio" Mock.start) =
     Ok (Some Mock.ohio_url) /\
   Mock.ohio_url = NicheScraper.potential_url "Columbus City School District" "ohio").
Proof.
  split.
  - split; [reflexivity|].
    apply (proj1 (locate_pennsylvania_links Mock.gs_results
                    "Pittsburgh School District" "OH" Mock.start
                    "https://www.greatschools.org/pennsylvania/pittsburgh/pittsburgh-school-district/")).
    reflexivity.
  - split; [reflexivity|].
    destruct (proj2 (locate_pennsylvania_links Mock.ohio
                       "Columbus City School District" "ohio" Mock.start
                       Mock.ohio_url) eq_refl)
      as [[_ Hguess] | [Hrejected _]].
    + exact Hguess.
    + vm_compute in Hrejected. discriminate Hrejected.
Defined.

(** C10 as stated fails for Niche: with [state] "ohio" the guessed URL of
    an Ohio district is returned, and it is the join of the base URL with
    no href that the Pennsylvania pattern accepts. *)
Lemma niche_locate_other_state_counterexample :
  ~ (forall (E : Env) (name state : string) (w : world) (u : string),
       fst (NicheScraper.search_district E name state w) = Ok (Some u) ->
       exists href,
         Re.found NicheScraper.district_href href = true /\
         u = urljoin E NicheScraper.base_url href).
Proof.
  intros H.
  destruct (H Mock.ohio "Columbus City School District" "ohio" Mock.start
              Mock.ohio_url eq_refl) as (href & Hfound & Hu).
  simpl in Hu. unfold Mock.join_path, Mock.ohio_url, NicheScraper.base_url in Hu.
  simpl in Hu. injection Hu as Hu. change ("" +:+ href) with href in Hu. subst href.
  vm_compute in Hfound. discriminate Hfound.
Qed.

(** ** Extracting the fields of a district page *)

Lemma gs_scrape_run (E : Env) (url : string) (w : world) :
  GreatSchoolsScraper.scrape_district_data E url w =
    (Ok match if_truthy (page_text (net E (gets w) url)) with
        | None => ∅
        | Some source =>
            let soup := BaseScraper.BeautifulSoup E source in
            <["greatschools_url" := VStr url]>
              (GreatSchoolsScraper.extract_ratio soup
                 (GreatSchoolsScraper.extract_enrollment soup
                    (GreatSchoolsScraper.extract_rating soup ∅)))
        end,
     after_fetch GreatSchoolsScraper.delay url (net E (gets w) url) w).
Proof.
  unfold GreatSchoolsScraper.scrape_district_data, bind.
  rewrite get_page_source_run.
  destruct (if_truthy _); reflexivity.
Qed.

Lemma sd_scrape_run (E : Env) (url : string) (w : world) :
  SchoolDiggerScraper.scrape_district_data E url w =
    (Ok match if_truthy (page_text (net E (gets w) url)) with
        | None => ∅
        | Some source =>
            <["schooldigger_url" := VStr url]>
              (SchoolDiggerScraper.extract_ranking (BaseScraper.BeautifulSoup E source) ∅)
        end,
     after_fetch SchoolDiggerScraper.delay url (net E (gets w) url) w).
Proof.
  unfold SchoolDiggerScraper.scrape_district_data, bind.
  rewrite get_page_source_run.
  destruct (if_truthy _); reflexivity.
Qed.



(** ** Computations that leave the files alone *)

Lemma quiet_ret {A} (a : A) (post : A -> Prop) : post a -> quiet (ret a) post.
Proof. intros H w. exists a, w. repeat split; assumption. Qed.

Lemma quiet_bind {A B} (m : M A) (k : A -> M B) (mid : A -> Prop) (post : B -> Prop) :
  quiet m mid -> (forall a, mid a -> quiet (k a) post) -> quiet (bind m k) post.
Proof.
  intros Hm Hk w. destruct (Hm w) as (a & w1 & Hrun & Hmid & Hf & Hc & Hp).
  destruct (Hk a Hmid w1) as (b & w2 & Hrun2 & Hpost & Hf2 & Hc2 & Hp2).
  exists b, w2. unfold bind. rewrite Hrun, Hrun2.
  repeat split; [exact Hpost | congruence | congruence | congruence].
Qed.

Lemma quiet_after_fetch {A} (m : M A) (post : A -> Prop) :
  (forall w, exists a delay url o,
      m w = (Ok a, after_fetch delay url o w) /\ post a) ->
  quiet m post.
Proof.
  intros H w. destruct (H w) as (a & delay & url & o & Hrun & Hpost).
  exists a, (after_fetch delay url o w).
  repeat split;
    [exact Hrun | exact Hpost | apply after_fetch_csv_writes | apply after_fetch_passes].
Qed.

Lemma quiet_timestamp_now (E : Env) : quiet (timestamp_now E) (fun _ => True).
Proof. intros w. eexists _, _. split; [reflexivity|]. simpl. repeat split. Qed.

Lemma quiet_gs_search E name state :
  quiet (GreatSchoolsScraper.search_district E name state) (fun _ => True).
Proof.
  apply quiet_after_fetch. intros w. rewrite gs_search_run.
  eexists _, _, _, _. split; [reflexivity | exact I].
Qed.

Lemma quiet_gs_scrape E url :
  quiet (GreatSchoolsScraper.scrape_district_data E url) (fun _ => True).
Proof.
  apply quiet_after_fetch. intros w. rewrite gs_scrape_run.
  eexists _, _, _, _. split; [reflexivity | exact I].
Qed.

Lemma quiet_niche_fallback E name state :
  quiet (NicheScraper.search_fallback E name state) (fun _ => True).
Proof.
  apply quiet_after_fetch. intros w. rewrite niche_fallback_run.
  eexists _, _, _, _. split; [reflexivity | exact I].
Qed.

Lemma quiet_get_page_source E delay url :
  quiet (BaseScraper.get_page_source E delay url) (fun _ => True).
Proof.
  apply quiet_after_fetch. intros w. rewrite get_page_source_run.
  eexists _, _, _, _. split; [reflexivity | exact I].
Qed.

Lemma quiet_niche_search E name state :
  quiet (NicheScraper.search_district E name state) (fun _ => True).
Proof.
  unfold NicheScraper.search_district.
  eapply quiet_bind; [apply quiet_get_page_source|].
  intros source _. destruct (NicheScraper.accepts source).
  - apply quiet_ret. exact I.
  - apply quiet_niche_fallback.
Qed.

Lemma quiet_niche_scrape E url :
  quiet (NicheScraper.scrape_district_data E url) (fun _ => True).
Proof.
  apply quiet_after_fetch. intros w. rewrite niche_scrape_run.
  eexists _, _, _, _. split; [reflexivity | exact I].
Qed.

Lemma quiet_sd_search E name state :
  quiet (SchoolDiggerScraper.search_district E name state) (fun _ => True).
Proof.
  apply quiet_after_fetch. intros w. rewrite sd_search_run.
  eexists _, _, _, _. split; [reflexivity | exact I].
Qed.

Lemma quiet_sd_scrape E url :
  quiet (SchoolDiggerScraper.scrape_district_data E url) (fun _ => True).
Proof.
  apply quiet_after_fetch. intros w. rewrite sd_scrape_run.
  eexists _, _, _, _. split; [reflexivity | exact I].
Qed.

Lemma same_identity_refl d : same_identity d d.
Proof. repeat split. Qed.

Lemma quiet_scrape_greatschools E name d :
  quiet (PASchoolDistrictScraper.scrape_greatschools E name d) (same_identity d).
Proof.
  unfold PASchoolDistrictScraper.scrape_greatschools.
  eapply quiet_bind; [apply quiet_gs_search|].
  intros gs_url _. destruct (if_truthy gs_url) as [u|].
  - eapply quiet_bind; [apply quiet_gs_scrape|].
    intros data _. apply quiet_ret. repeat split.
  - apply quiet_ret, same_identity_refl.
Qed.

Lemma quiet_scrape_niche E name d :
  quiet (PASchoolDistrictScraper.scrape_niche E name d) (same_identity d).
Proof.
  unfold PASchoolDistrictScraper.scrape_niche.
  eapply quiet_bind; [apply quiet_niche_search|].
  intros niche_url _. destruct (if_truthy niche_url) as [u|].
  - eapply quiet_bind; [apply quiet_niche_scrape|].
    intros data _. apply quiet_ret. repeat split.
  - apply quiet_ret, same_identity_refl.
Qed.

Lemma quiet_scrape_schooldigger E name d :
  quiet (PASchoolDistrictScraper.scrape_schooldigger E name d) (same_identity d).
Proof.
  unfold PASchoolDistrictScraper.scrape_schooldigger.
  eapply quiet_bind; [apply quiet_sd_search|].
  intros sd_url _. destruct (if_truthy sd_url) as [u|].
  - eapply quiet_bind; [apply quiet_sd_scrape|].
    intros data _. apply quiet_ret. repeat split.
  - apply quiet_ret, same_identity_refl.
Qed.

(** The three site lookups of one pass, after the record is created. *)
Lemma quiet_site_lookups E name d :
  quiet (d1 <- PASchoolDistrictScraper.scrape_greatschools E name d ;;
         d2 <- PASchoolDistrictScraper.scrape_niche E name d1 ;;
         d3 <- PASchoolDistrictScraper.scrape_schooldigger E name d2 ;;
         ret d3)
        (same_identity d).
Proof.
  eapply quiet_bind; [apply quiet_scrape_greatschools|]. intros d1 (Hn1 & Hc1 & Ht1).
  eapply quiet_bind; [apply quiet_scrape_niche|]. intros d2 (Hn2 & Hc2 & Ht2).
  eapply quiet_bind; [apply quiet_scrape_schooldigger|]. intros d3 (Hn3 & Hc3 & Ht3).
  apply quiet_ret. unfold same_identity.
  rewrite Hn3, Hn2, Hn1, Hc3, Hc2, Hc1, Ht3, Ht2, Ht1. repeat split.
Qed.



(** ** The loop of the aggregator *)











(** ** The aggregator *)




(** ** Districts no site answers for *)




Lemma scrape_district_unfold E total i name w :
  PASchoolDistrictScraper.scrape_district E total i name w =
    (d1 <- PASchoolDistrictScraper.scrape_greatschools E name
             (PASchoolDistrictScraper.new_record name (clock E (ticks w))) ;;
     d2 <- PASchoolDistrictScraper.scrape_niche E name d1 ;;
     d3 <- PASchoolDistrictScraper.scrape_schooldigger E name d2 ;;
     ret d3)
      (mkWorld (gets w) (S (ticks w)) (files w)
         (trace w ++ [EvLogProcessing name (i + 1) total])).
Proof. reflexivity. Qed.




(** ** Two runs over the same pages *)

Section SamePages.
Variables E1 E2 : Env.
Hypothesis same_net : forall n m url, net E1 n url = net E2 m url.
Hypothesis same_parser : forall source, html_parser E1 source = html_parser E2 source.
Hypothesis same_urljoin : forall base href, urljoin E1 base href = urljoin E2 base href.





















End SamePages.



(** ** The record invariant *)




(** ** Worked examples *)

Example lower_example :
  Str.lower "Pittsburgh School District" = "pittsburgh school district".
Proof. reflexivity. Qed.

Example district_slug_example :
  NicheScraper.district_slug "Central Dauphin School District" = "central-dauphin".
Proof. reflexivity. Qed.

Example quote_example : Str.quote "Central Dauphin/x&y" = "Central%20Dauphin/x%26y".
Proof. reflexivity. Qed.

Example query_string_example :
  query_string [("q", "Pittsburgh School District"); ("state", "PA"); ("level", "district")]
  = "?q=Pittsburgh%20School%20District&state=PA&level=district".
Proof. reflexivity. Qed.

Example search_digits_example :
  Re.search GreatSchoolsScraper.digits "Rating 8/10" = Some "8".
Proof. reflexivity. Qed.

Example search_grouped_digits_example :
  Re.search GreatSchoolsScraper.grouped_digits "about 20,350 students" = Some "20,350".
Proof. reflexivity. Qed.

Example search_ratio_example :
  Re.search GreatSchoolsScraper.ratio "ratio 1a2:3 then 15:1" = Some "2:3".
Proof. reflexivity. Qed.

Example search_grade_examples :
  Re.search NicheScraper.grade "B+" = Some "B+" /\
  Re.search NicheScraper.grade "A" = Some "A" /\
  Re.search NicheScraper.grade "F-" = Some "F-" /\
  Re.search NicheScraper.grade "overall: C minus" = Some "C" /\
  Re.search NicheScraper.grade "not rated" = None.
Proof. repeat split; reflexivity. Qed.

(** A page whose rating badge reads "Rating 8/10" gives the rating 8. *)
Example rating_badge_example :
  GreatSchoolsScraper.extract_rating
    (Soup.document [Soup.Tag "div" [("class", "rating")]
                      [Soup.NavigableString "Rating 8/10"]]) ∅
  !! "greatschools_rating" = Some (VInt 8).
Proof. reflexivity. Qed.

(** Twenty-three districts: checkpoints after the tenth and the twentieth
    record, then the final file; the checkpoint file is replaced, not
    extended. *)
Example twenty_three_districts :
  let w' := snd (PASchoolDistrictScraper.scrape_all_districts Mock.offline
                   Mock.names23 "out.csv" Mock.start) in
  (fun write => (fst write, length (snd write))) <$> csv_writes (trace w') =
    [("temp_out.csv", 10); ("temp_out.csv", 20); ("out.csv", 23)] /\
  length <$> files w' !! "out.csv" = Some 23 /\
  length <$> files w' !! "temp_out.csv" = Some 20.
Proof. vm_compute. repeat split. Qed.

(** A name given twice is scraped twice: two records, each with the
    timestamp of its own pass. *)
Example duplicate_names_example :
  fst (PASchoolDistrictScraper.scrape_all_districts Mock.offline
         ["Abington"; "Abington"] "out.csv" Mock.start) =
  Ok [PASchoolDistrictScraper.new_record "Abington" "2024-01-01T00:00:00";
      PASchoolDistrictScraper.new_record "Abington" "2024-01-01T00:00:01"].
Proof. vm_compute. reflexivity. Qed.

(** With every site unreachable a pass issues four GETs. *)
Example offline_pass_gets :
  count_gets (trace (snd (PASchoolDistrictScraper.scrape_district Mock.offline 1 0
                            "Abington" Mock.start))) = 4.
Proof. vm_compute. reflexivity. Qed.

(** ** Strings *)

Lemma append_cons (c : ascii) (a b : string) : String c a +:+ b = String c (a +:+ b).
Proof. reflexivity. Qed.

Lemma append_nil_l (s : string) : "" +:+ s = s.
Proof. reflexivity. Qed.

Lemma append_nil_r (s : string) : s +:+ "" = s.
Proof.
  induction s as [|c s IH]; [reflexivity|]. rewrite append_cons, IH. reflexivity.
Qed.

Lemma append_assoc (a b c : string) : (a +:+ b) +:+ c = a +:+ (b +:+ c).
Proof.
  induction a as [|x a IH]; [reflexivity|]. rewrite !append_cons, IH. reflexivity.
Qed.

Lemma length_append (a b : string) :
  String.length (a +:+ b) = String.length a + String.length b.
Proof.
  induction a as [|x a IH]; [reflexivity|]. rewrite append_cons. simpl.
  rewrite IH. reflexivity.
Qed.

Lemma substring_prefix (m rest : string) :
  String.substring 0 (String.length m) (m +:+ rest) = m.
Proof.
  induction m as [|c m IH].
  - rewrite append_nil_l. destruct rest; reflexivity.
  - rewrite append_cons. simpl. rewrite IH. reflexivity.
Qed.

Lemma all_chars_append p (a b : string) :
  all_chars p (a +:+ b) = all_chars p a && all_chars p b.
Proof.
  induction a as [|c a IH]; [reflexivity|]. rewrite append_cons. simpl.
  rewrite IH, andb_assoc. reflexivity.
Qed.

(** ** The matcher finds only texts of the pattern's language *)

Lemma rmatch_sound {A} (r : Re.regex) : forall (s : string) (k : string -> option A) (x : A),
  Re.rmatch r s k = Some x ->
  exists m rest, s = m +:+ rest /\ in_language r m /\ k rest = Some x.
Proof.
  induction r as [|p|r1 IH1 r2 IH2|r1 IH1 r2 IH2|r1 IH1|r1 IH1]; intros s k x H; simpl in H.
  - exists "", s. repeat split; [constructor | exact H].
  - destruct s as [|c s']; [discriminate|].
    destruct (p c) eqn:Hp; [|discriminate].
    exists (String c ""), s'. repeat split; [constructor; exact Hp | exact H].
  - apply IH1 in H. destruct H as (m1 & rest1 & -> & Hm1 & H).
    apply IH2 in H. destruct H as (m2 & rest & -> & Hm2 & H).
    exists (m1 +:+ m2), rest. rewrite append_assoc.
    repeat split; [constructor; assumption | exact H].
  - destruct (Re.rmatch r1 s k) as [y|] eqn:H1.
    + injection H as <-. apply IH1 in H1. destruct H1 as (m & rest & -> & Hm & H1).
      exists m, rest. repeat split; [apply lang_alt_l; exact Hm | exact H1].
    + apply IH2 in H. destruct H as (m & rest & -> & Hm & H).
      exists m, rest. repeat split; [apply lang_alt_r; exact Hm | exact H].
  - destruct (Re.rmatch r1 s k) as [y|] eqn:H1.
    + injection H as <-. apply IH1 in H1. destruct H1 as (m & rest & -> & Hm & H1).
      exists m, rest. repeat split; [apply lang_opt_some; exact Hm | exact H1].
    + exists "", s. repeat split; [apply lang_opt_none | exact H].
  - revert H. generalize (String.length s) at 1. intros fuel. revert s.
    induction fuel as [|fuel IHf]; intros s H.
    + exists "", s. repeat split; [apply lang_star_nil | exact H].
    + match type of H with
      | match ?e with _ => _ end = _ => destruct e as [y|] eqn:H1
      end.
      * injection H as <-. apply IH1 in H1.
        destruct H1 as (m1 & rest1 & -> & Hm1 & H1).
        destruct (String.length rest1 <? String.length (m1 +:+ rest1))%nat; [|discriminate].
        apply IHf in H1. destruct H1 as (m2 & rest & -> & Hm2 & H1).
        exists (m1 +:+ m2), rest. rewrite append_assoc.
        repeat split; [apply lang_star_cons; assumption | exact H1].
      * exists "", s. repeat split; [apply lang_star_nil | exact H].
Qed.

Lemma match_at_sound (r : Re.regex) (s m : string) :
  Re.match_at r s = Some m -> exists rest, s = m +:+ rest /\ in_language r m.
Proof.
  unfold Re.match_at. intros H. apply rmatch_sound in H.
  destruct H as (m' & rest & -> & Hm & H). injection H as <-.
  rewrite length_append.
  replace (String.length m' + String.length rest - String.length rest)
    with (String.length m') by lia.
  rewrite substring_prefix. exists rest. split; [reflexivity | exact Hm].
Qed.

Lemma search_sound (r : Re.regex) (s m : string) :
  Re.search r s = Some m ->
  exists before after, s = before +:+ m +:+ after /\ in_language r m.
Proof.
  induction s as [|c s' IH]; cbn [Re.search]; intros H.
  - destruct (Re.match_at r "") as [m'|] eqn:Hm; [|discriminate].
    injection H as <-. apply match_at_sound in Hm. destruct Hm as (rest & Hs & Hm).
    exists "", rest. split; [exact Hs | exact Hm].
  - destruct (Re.match_at r (String c s')) as [m'|] eqn:Hm.
    + injection H as <-. apply match_at_sound in Hm. destruct Hm as (rest & Hs & Hm).
      exists "", rest. split; [exact Hs | exact Hm].
    + apply IH in H. destruct H as (before & after & -> & Hm').
      exists (String c before), after. split; [reflexivity | exact Hm'].
Qed.

(** ** What the numeric patterns can match *)

Lemma lang_chr_inv p m :
  in_language (Re.Chr p) m -> exists c, m = String c "" /\ p c = true.
Proof. inversion 1; subst. eexists; split; [reflexivity | assumption]. Qed.

Lemma lang_seq_inv r1 r2 m :
  in_language (Re.Seq r1 r2) m ->
  exists m1 m2, m = m1 +:+ m2 /\ in_language r1 m1 /\ in_language r2 m2.
Proof. inversion 1; subst. eexists _, _; repeat split; assumption. Qed.

Lemma lang_star_chars (r : Re.regex) (q : ascii -> bool) :
  (forall m, in_language r m -> all_chars q m = true) ->
  forall m, in_language (Re.Star r) m -> all_chars q m = true.
Proof.
  intros Hr m H. remember (Re.Star r) as sr eqn:Heq.
  induction H; try discriminate; [reflexivity|].
  injection Heq as ->. rewrite all_chars_append, (Hr _ H), IHin_language2; reflexivity.
Qed.

Lemma lang_chr_chars p m : in_language (Re.Chr p) m -> all_chars p m = true.
Proof.
  intros H. apply lang_chr_inv in H. destruct H as (c & -> & Hc).
  simpl. rewrite Hc. reflexivity.
Qed.


Lemma lang_lit s : forall m, in_language (Re.lit s) m -> m = s.
Proof.
  induction s as [|c s IH]; intros m H.
  - inversion H. reflexivity.
  - apply lang_seq_inv in H. destruct H as (m1 & m2 & -> & H1 & H2).
    apply lang_chr_inv in H1. destruct H1 as (x & -> & Hx).
    apply Ascii.eqb_eq in Hx. subst x. rewrite (IH _ H2). reflexivity.
Qed.



Lemma digit_string_append a b :
  digit_string a = true -> all_chars Str.is_digit b = true -> digit_string (a +:+ b) = true.
Proof.
  unfold digit_string. intros Ha Hb. apply andb_prop in Ha. destruct Ha as [Ht Ha].
  rewrite all_chars_append, Ha, Hb. destruct a; [discriminate|]. reflexivity.
Qed.





(** ** The dictionaries of the extractors *)












(** ** Literal patterns are substring tests *)

Lemma rmatch_lit_with {A} (same : ascii -> ascii -> bool) (p : string) :
  forall (s : string) (k : string -> option A),
    Re.rmatch (Re.lit_with (fun c => Re.Chr (same c)) p) s k =
      if prefix_by same p s then k (after_prefix p s) else None.
Proof.
  induction p as [|c p IH]; intros s k; [destruct s; reflexivity|].
  destruct s as [|x s]; [reflexivity|].
  cbn [Re.lit_with Re.rmatch prefix_by after_prefix].
  destruct (same c x); [apply IH | reflexivity].
Qed.

Lemma prefix_by_split same p : forall s,
  prefix_by same p s = true ->
  exists m, s = m +:+ after_prefix p s /\ String.length m = String.length p.
Proof.
  induction p as [|c p IH]; intros s H.
  - exists "". split; [destruct s; reflexivity | reflexivity].
  - destruct s as [|x s]; [discriminate|]. simpl in H.
    apply andb_prop in H. destruct H as [_ H].
    destruct (IH s H) as (m & Hs & Hlen).
    exists (String x m). split; [|simpl; rewrite Hlen; reflexivity].
    rewrite append_cons. simpl. rewrite <- Hs. reflexivity.
Qed.

Lemma found_by_prefix (r : Re.regex) (test : string -> bool) :
  (forall s, test s = match Re.match_at r s with Some _ => true | None => false end) ->
  forall s,
    Re.found r s =
      (fix scan (s : string) : bool :=
         test s || match s with EmptyString => false | String _ s' => scan s' end) s.
Proof.
  intros Htest. unfold Re.found. induction s as [|c s IH]; cbn [Re.search].
  - rewrite Htest. destruct (Re.match_at r ""); reflexivity.
  - rewrite Htest. destruct (Re.match_at r (String c s)); [reflexivity|]. exact IH.
Qed.

Lemma match_at_lit_with same p s :
  match Re.match_at (Re.lit_with (fun c => Re.Chr (same c)) p) s with
  | Some _ => true
  | None => false
  end = prefix_by same p s.
Proof.
  unfold Re.match_at. rewrite rmatch_lit_with. destruct (prefix_by same p s); reflexivity.
Qed.

Lemma prefix_by_eqb p : forall s, prefix_by Ascii.eqb p s = Str.startswith p s.
Proof.
  induction p as [|c p IH]; intros s; [destruct s; reflexivity|].
  destruct s as [|x s]; [reflexivity|]. simpl. rewrite IH.
  destruct (Ascii.eqb c x); reflexivity.
Qed.


Lemma found_lit (p s : string) : Re.found (Re.lit p) s = Str.contains p s.
Proof.
  rewrite (found_by_prefix _ (Str.startswith p)).
  - induction s as [|c s IH]; [reflexivity|]. cbn [Str.contains]. rewrite <- IH. reflexivity.
  - intros s'. unfold Re.lit, Re.char.
    rewrite (match_at_lit_with Ascii.eqb). symmetry. apply prefix_by_eqb.
Qed.


Lemma found_alt (r1 r2 : Re.regex) (s : string) :
  Re.found (Re.Alt r1 r2) s = Re.found r1 s || Re.found r2 s.
Proof.
  unfold Re.found. induction s as [|c s IH]; cbn [Re.search].
  - unfold Re.match_at at 1. cbn [Re.rmatch].
    fold (Re.match_at r1 ""). fold (Re.match_at r2 "").
    destruct (Re.match_at r1 ""); [reflexivity|].
    destruct (Re.match_at r2 ""); reflexivity.
  - unfold Re.match_at at 1. cbn [Re.rmatch].
    fold (Re.match_at r1 (String c s)). fold (Re.match_at r2 (String c s)).
    destruct (Re.match_at r1 (String c s)); [reflexivity|].
    destruct (Re.match_at r2 (String c s)).
    + destruct (Re.search r1 s); reflexivity.
    + exact IH.
Qed.

(** ** Which elements the extractors select *)

(** X3.  The rating badge of a GreatSchools page is looked for among the
    [div] tags whose class attribute contains "rating" or "score" as a
    substring, and the grade element of a Niche page among those whose
    class attribute contains "grade" or "rating": the compiled class
    patterns are plain substring tests, so a class that merely contains
    one of the words qualifies, and a tag without a class attribute
    never does. *)
Theorem class_filters_are_substring_tests (n : Soup.node) :
  Soup.tag_matches "div" "class" GreatSchoolsScraper.rating_class n =
    tag_with_word "div" "class" ["rating"; "score"] n /\
  Soup.tag_matches "div" "class" NicheScraper.grade_class n =
    tag_with_word "div" "class" ["grade"; "rating"] n.
Proof.
  destruct n as [s|nm attrs cs]; [split; reflexivity|].
  unfold Soup.tag_matches, tag_with_word.
  destruct (Soup.attr "class" attrs) as [v|]; [|split; reflexivity].
  unfold GreatSchoolsScraper.rating_class, NicheScraper.grade_class.
  rewrite !found_alt, !found_lit. simpl. rewrite !orb_false_r.
  split; reflexivity.
Qed.


Lemma found_dotted (first second h : string) :
  Re.found (Re.Seq (Re.lit first) (Re.Seq (Re.Star Re.dot) (Re.lit second))) h = true ->
  has_both_on_a_line first second h.
Proof.
  unfold Re.found. destruct (Re.search _ h) as [m|] eqn:Hm; [|discriminate].
  intros _. apply search_sound in Hm. destruct Hm as (before & after & -> & Hm).
  apply lang_seq_inv in Hm. destruct Hm as (a & m2 & -> & Ha & Hm).
  apply lang_seq_inv in Hm. destruct Hm as (between & b & -> & Hmid & Hb).
  apply lang_lit in Ha. apply lang_lit in Hb. subst a b.
  apply (lang_star_chars _ (fun c => negb (Ascii.eqb c "010"%char))) in Hmid;
    [|apply lang_chr_chars].
  exists before, between, after. split; [|exact Hmid].
  rewrite !append_assoc. reflexivity.
Qed.

(** X5.  The links a locate step scans are anchors with an href of a
    fixed shape.  On GreatSchools the href contains "/pennsylvania/" and,
    later on the same line, "-district/"; on Niche it contains "/k12/d/"
    and, later on the same line, "pennsylvania"; on SchoolDigger the
    filter is exactly the test that the href contains
    "/go/PA/district.aspx". *)
Theorem scanned_links_have_the_site_path (soup link : Soup.node) :
  (In link (Soup.find_all "a" "href" GreatSchoolsScraper.district_href soup) ->
   has_both_on_a_line "/pennsylvania/" "-district/" (Soup.href link)) /\
  (In link (Soup.find_all "a" "href" NicheScraper.district_href soup) ->
   has_both_on_a_line "/k12/d/" "pennsylvania" (Soup.href link)) /\
  Soup.tag_matches "a" "href" SchoolDiggerScraper.district_href link =
    tag_with_word "a" "href" ["/go/PA/district.aspx"] link.
Proof.
  split; [|split].
  - intros H. apply find_all_href_found in H. apply found_dotted. exact H.
  - intros H. apply find_all_href_found in H. apply found_dotted. exact H.
  - destruct link as [s|nm attrs cs]; [reflexivity|].
    unfold Soup.tag_matches, tag_with_word.
    destruct (Soup.attr "href" attrs) as [v|]; [|reflexivity].
    unfold SchoolDiggerScraper.district_href. rewrite found_lit. simpl.
    rewrite orb_false_r. reflexivity.
Qed.

Lemma scanned_links_have_the_site_path_witness :
  In (Soup.Tag "a" [("href", "/pennsylvania/pittsburgh/pittsburgh-school-district/")]
        [Soup.NavigableString "Pittsburgh School District"])
     (Soup.find_all "a" "href" GreatSchoolsScraper.district_href
        (BaseScraper.BeautifulSoup Mock.reachable Mock.gs_results_source)) /\
  has_both_on_a_line "/pennsylvania/" "-district/"
    "/pennsylvania/pittsburgh/pittsburgh-school-district/".
Proof.
  assert (Hin : In (Soup.Tag "a" [("href", "/pennsylvania/pittsburgh/pittsburgh-school-district/")]
                      [Soup.NavigableString "Pittsburgh School District"])
                   (Soup.find_all "a" "href" GreatSchoolsScraper.district_href
                      (BaseScraper.BeautifulSoup Mock.reachable Mock.gs_results_source)))
    by (vm_compute; left; reflexivity).
  split; [exact Hin|].
  exact (proj1 (scanned_links_have_the_site_path _ _) Hin).
Defined.

(** ** Slugs and query strings *)

Lemma lower_char_not_upper c : Str.is_upper (Str.lower_char c) = false.
Proof. destruct c as [[] [] [] [] [] [] [] []]; reflexivity. Qed.

Lemma lower_char_idempotent c : Str.lower_char (Str.lower_char c) = Str.lower_char c.
Proof. destruct c as [[] [] [] [] [] [] [] []]; reflexivity. Qed.

Lemma lower_idempotent s : Str.lower (Str.lower s) = Str.lower s.
Proof.
  induction s as [|c s IH]; simpl; [reflexivity|].
  rewrite lower_char_idempotent, IH. reflexivity.
Qed.

Lemma lower_no_upper s : all_chars (fun c => negb (Str.is_upper c)) (Str.lower s) = true.
Proof.
  induction s as [|c s IH]; simpl; [reflexivity|].
  rewrite lower_char_not_upper, IH. reflexivity.
Qed.

Lemma replace_from_keeps (q : ascii -> bool) (old new : string) :
  all_chars q new = true ->
  forall s skip, all_chars q s = true ->
    all_chars q (Str.replace_from old new skip s) = true.
Proof.
  intros Hnew. induction s as [|c s IH]; intros skip Hs; [reflexivity|].
  simpl in Hs. apply andb_prop in Hs. destruct Hs as [Hc Hs].
  cbn [Str.replace_from]. destruct skip as [|skip]; [|apply IH; exact Hs].
  destruct (Str.startswith old (String c s)).
  - rewrite all_chars_append, Hnew. apply IH. exact Hs.
  - simpl. rewrite Hc. apply IH. exact Hs.
Qed.

Lemma replace_space_leaves_none s :
  all_chars (fun c => negb (Ascii.eqb c " "%char)) (Str.replace " " "-" s) = true.
Proof.
  unfold Str.replace. induction s as [|c s IH]; [reflexivity|].
  cbn [Str.replace_from Str.startswith]. rewrite Ascii.eqb_sym.
  destruct (Ascii.eqb c " "%char) eqn:Hc.
  - destruct s; rewrite append_cons, append_nil_l; simpl; exact IH.
  - simpl. rewrite Hc. exact IH.
Qed.

Lemma lstrip_keeps q p s : all_chars q s = true -> all_chars q (Str.lstrip p s) = true.
Proof.
  induction s as [|c s IH]; intros H; [reflexivity|].
  simpl. destruct (p c); [|exact H].
  simpl in H. apply andb_prop in H. apply IH, H.
Qed.

Lemma rstrip_keeps q p s : all_chars q s = true -> all_chars q (Str.rstrip p s) = true.
Proof.
  induction s as [|c s IH]; intros H; [reflexivity|].
  simpl in H. apply andb_prop in H. destruct H as [Hc Hs].
  simpl. specialize (IH Hs). destruct (Str.rstrip p s) as [|x r].
  - destruct (p c); simpl; [reflexivity | rewrite Hc; reflexivity].
  - cbn [all_chars]. rewrite Hc. exact IH.
Qed.

Lemma lstrip_head p s c r : Str.lstrip p s = String c r -> p c = false.
Proof.
  induction s as [|x s IH]; simpl; [discriminate|].
  destruct (p x) eqn:Hx; [exact IH|]. intros [= <- _]. exact Hx.
Qed.

Lemma rstrip_head p c s : p c = false -> exists r, Str.rstrip p (String c s) = String c r.
Proof.
  intros Hc. simpl. destruct (Str.rstrip p s) as [|x r]; rewrite ?Hc; eexists; reflexivity.
Qed.

Lemma rstrip_end p c s : p c = true -> ends_with_char c (Str.rstrip p s) = false.
Proof.
  intros Hc. induction s as [|x s IH]; [reflexivity|].
  simpl. destruct (Str.rstrip p s) as [|y r] eqn:Hr.
  - destruct (p x) eqn:Hx; [reflexivity|]. simpl.
    destruct (Ascii.eqb_spec x c) as [->|]; [congruence | reflexivity].
  - cbn [ends_with_char]. exact IH.
Qed.

(** X6.  The slug the Niche locate step puts in the guessed URL contains
    no space and no upper-case letter, and neither begins nor ends with a
    hyphen, whatever the district name. *)
Theorem district_slug_shape (district_name : string) :
  let slug := NicheScraper.district_slug district_name in
  all_chars (fun c => negb (Str.is_upper c)) slug = true /\
  all_chars (fun c => negb (Ascii.eqb c " "%char)) slug = true /\
  Str.startswith "-" slug = false /\
  ends_with_char "-"%char slug = false.
Proof.
  intros slug. subst slug. unfold NicheScraper.district_slug, Str.strip.
  set (hyphen := fun c => Ascii.eqb c "-"%char).
  set (t := Str.replace "school-district" "" (Str.replace " " "-" (Str.lower district_name))).
  assert (Hupper : all_chars (fun c => negb (Str.is_upper c)) t = true).
  { apply replace_from_keeps; [reflexivity|].
    apply replace_from_keeps; [reflexivity | apply lower_no_upper]. }
  assert (Hspace : all_chars (fun c => negb (Ascii.eqb c " "%char)) t = true).
  { apply replace_from_keeps; [reflexivity | apply replace_space_leaves_none]. }
  split; [apply rstrip_keeps, lstrip_keeps, Hupper|].
  split; [apply rstrip_keeps, lstrip_keeps, Hspace|].
  split; [|apply rstrip_end; reflexivity].
  destruct (Str.lstrip hyphen t) as [|c r] eqn:Hl; [reflexivity|].
  pose proof (lstrip_head _ _ _ _ Hl) as Hc.
  destruct (rstrip_head hyphen c r Hc) as (r' & ->).
  cbn [Str.startswith]. unfold hyphen in Hc. rewrite Ascii.eqb_sym, Hc. reflexivity.
Qed.

Lemma hex_digits_safe c :
  Str.quote_safe (Str.hex_digit (nat_of_ascii c / 16)) = true /\
  Str.quote_safe (Str.hex_digit (nat_of_ascii c mod 16)) = true.
Proof. destruct c as [[] [] [] [] [] [] [] []]; split; reflexivity. Qed.

(** X7.  [quote], applied to every value of a query string, returns text
    made only of the characters it never escapes (letters, digits,
    [_.-~/]) and of [%]: a district name cannot put a space, [&], [=],
    [?] or [#] into the search URL.  Text that is already made of
    unescaped characters is returned unchanged. *)
Theorem quote_output_is_url_safe (s : string) :
  all_chars (fun c => Str.quote_safe c || Ascii.eqb c "%"%char) (Str.quote s) = true /\
  (all_chars Str.quote_safe s = true -> Str.quote s = s).
Proof.
  split.
  - induction s as [|c s IH]; [reflexivity|].
    cbn [Str.quote]. destruct (Str.quote_safe c) eqn:Hc.
    + simpl. rewrite Hc. exact IH.
    + destruct (hex_digits_safe c) as [Hhi Hlo].
      cbn [all_chars]. rewrite Hhi, Hlo, IH. reflexivity.
  - induction s as [|c s IH]; intros H; [reflexivity|].
    simpl in H. apply andb_prop in H. destruct H as [Hc Hs].
    cbn [Str.quote]. rewrite Hc, (IH Hs). reflexivity.
Qed.

Lemma quote_output_is_url_safe_witness :
  all_chars Str.quote_safe "Pittsburgh" = true /\ Str.quote "Pittsburgh" = "Pittsburgh".
Proof.
  split; [reflexivity|].
  exact (proj2 (quote_output_is_url_safe "Pittsburgh") eq_refl).
Defined.

(** ** First match wins *)

(** X8.  The loop that ends each locate step returns the join of the base
    URL with the href of the first scanned link whose text contains the
    district name, letter case ignored; links after it are not looked at,
    and the result is absent exactly when no link names the district.
    The letter case of the district name does not matter. *)
Theorem first_matching_link_wins (E : Env) (base district_name : string)
    (links : list Soup.node) :
  match BaseScraper.first_matching_link E base district_name links with
  | Some u =>
      exists before link after,
        links = before ++ link :: after /\
        forallb (fun l => negb (link_names district_name l)) before = true /\
        link_names district_name link = true /\
        u = urljoin E base (Soup.href link)
  | None => forallb (fun l => negb (link_names district_name l)) links = true
  end /\
  BaseScraper.first_matching_link E base (Str.lower district_name) links =
  BaseScraper.first_matching_link E base district_name links.
Proof.
  split.
  - induction links as [|link rest IH]; [reflexivity|].
    cbn [BaseScraper.first_matching_link]. fold (link_names district_name link).
    destruct (link_names district_name link) eqn:Hl.
    + exists [], link, rest. repeat split. exact Hl.
    + destruct (BaseScraper.first_matching_link E base district_name rest) as [u|].
      * destruct IH as (before & l & after & -> & Hb & Hm & ->).
        exists (link :: before), l, after. repeat split; [|exact Hm].
        simpl. rewrite Hl. exact Hb.
      * simpl. rewrite Hl. exact IH.
  - induction links as [|link rest IH]; [reflexivity|].
    cbn [BaseScraper.first_matching_link]. rewrite lower_idempotent, IH. reflexivity.
Qed.

(** ** Requests, rate limiting and timestamps of a run *)

Lemma polite_from_armed t : forall b,
  polite_from b t = true -> polite_from true t = true.
Proof.
  destruct t as [|e t]; intros b H; [reflexivity|].
  destruct e; simpl in *; try exact H.
  apply andb_prop in H. destruct H as [H1 H2].
  apply andb_prop in H1. destruct H1 as [_ H1]. rewrite H1, H2. reflexivity.
Qed.

Lemma polite_from_app t1 t2 : forall b,
  polite_from b t1 = true -> polite t2 = true -> polite_from b (t1 ++ t2) = true.
Proof.
  induction t1 as [|e t1 IH]; intros b H1 H2.
  - simpl. destruct b; [eapply polite_from_armed|]; exact H2.
  - destruct e; simpl in *; try (apply IH; assumption).
    apply andb_prop in H1. destruct H1 as [H1 H3]. rewrite H1. simpl.
    apply IH; assumption.
Qed.

Lemma polite_app t1 t2 : polite t1 = true -> polite t2 = true -> polite (t1 ++ t2) = true.
Proof. apply polite_from_app. Qed.

Lemma fetches_refl w : fetches 0 0 w w.
Proof. unfold fetches. repeat split; try lia. auto. Qed.

Lemma fetches_trans a b c d w w1 w2 :
  fetches a b w w1 -> fetches c d w1 w2 -> fetches (a + c) (b + d) w w2.
Proof.
  intros (Ht1 & Hlo1 & Hhi1 & Hp1) (Ht2 & Hlo2 & Hhi2 & Hp2).
  unfold fetches. repeat split; [congruence | lia | lia | auto].
Qed.

Lemma fetches_weaken a b a' b' w w' :
  fetches a b w w' -> a' <= a -> b <= b' -> fetches a' b' w w'.
Proof.
  intros (Ht & Hlo & Hhi & Hp) Ha Hb. unfold fetches. repeat split; [exact Ht | lia | lia | exact Hp].
Qed.

Lemma fetches_after_fetch delay url o w :
  1000 <= delay -> fetches 1 1 w (after_fetch delay url o w).
Proof.
  intros Hdelay. unfold fetches.
  rewrite after_fetch_count_gets.
  repeat split; [lia | lia |].
  intros Hp. unfold after_fetch; simpl.
  assert (Hreq : polite ([EvSleep delay] ++ [EvGet url 10]) = true).
  { unfold polite. cbn [app polite_from].
    rewrite (proj2 (Nat.leb_le 1000 delay) Hdelay). reflexivity. }
  destruct o as [e|st body]; [|destruct ((400 <=? st) && (st <? 600))%Z];
    repeat apply polite_app; try assumption; reflexivity.
Qed.

Lemma fetches_of_run {A} (m : M A) (delay : nat) (w : world) :
  1000 <= delay ->
  (exists a url o, m w = (Ok a, after_fetch delay url o w)) ->
  exists a w', m w = (Ok a, w') /\ fetches 1 1 w w'.
Proof.
  intros Hdelay (a & url & o & Hrun). exists a, (after_fetch delay url o w).
  split; [exact Hrun | apply fetches_after_fetch; exact Hdelay].
Qed.

Lemma gs_search_fetches E name state w :
  exists r w', GreatSchoolsScraper.search_district E name state w = (Ok r, w') /\
               fetches 1 1 w w'.
Proof.
  apply (fetches_of_run _ GreatSchoolsScraper.delay); [unfold GreatSchoolsScraper.delay; lia|].
  rewrite gs_search_run. eexists _, _, _. reflexivity.
Qed.

Lemma gs_scrape_fetches E url w :
  exists r w', GreatSchoolsScraper.scrape_district_data E url w = (Ok r, w') /\
               fetches 1 1 w w'.
Proof.
  apply (fetches_of_run _ GreatSchoolsScraper.delay); [unfold GreatSchoolsScraper.delay; lia|].
  rewrite gs_scrape_run. eexists _, _, _. reflexivity.
Qed.

Lemma niche_fallback_fetches E name state w :
  exists r w', NicheScraper.search_fallback E name state w = (Ok r, w') /\
               fetches 1 1 w w'.
Proof.
  apply (fetches_of_run _ NicheScraper.delay); [unfold NicheScraper.delay; lia|].
  rewrite niche_fallback_run. eexists _, _, _. reflexivity.
Qed.

Lemma niche_scrape_fetches E url w :
  exists r w', NicheScraper.scrape_district_data E url w = (Ok r, w') /\
               fetches 1 1 w w'.
Proof.
  apply (fetches_of_run _ NicheScraper.delay); [unfold NicheScraper.delay; lia|].
  rewrite niche_scrape_run. eexists _, _, _. reflexivity.
Qed.

Lemma sd_search_fetches E name state w :
  exists r w', SchoolDiggerScraper.search_district E name state w = (Ok r, w') /\
               fetches 1 1 w w'.
Proof.
  apply (fetches_of_run _ SchoolDiggerScraper.delay); [unfold SchoolDiggerScraper.delay; lia|].
  rewrite sd_search_run. eexists _, _, _. reflexivity.
Qed.

Lemma sd_scrape_fetches E url w :
  exists r w', SchoolDiggerScraper.scrape_district_data E url w = (Ok r, w') /\
               fetches 1 1 w w'.
Proof.
  apply (fetches_of_run _ SchoolDiggerScraper.delay); [unfold SchoolDiggerScraper.delay; lia|].
  rewrite sd_scrape_run. eexists _, _, _. reflexivity.
Qed.

Lemma scrape_greatschools_fetches E name d w :
  exists d' w', PASchoolDistrictScraper.scrape_greatschools E name d w = (Ok d', w') /\
                fetches 1 2 w w'.
Proof.
  unfold PASchoolDistrictScraper.scrape_greatschools, bind at 1.
  destruct (gs_search_fetches E name "PA" w) as (r & w1 & -> & H1).
  destruct (if_truthy r) as [u|].
  - unfold bind. destruct (gs_scrape_fetches E u w1) as (data & w2 & -> & H2).
    eexists _, _. split; [reflexivity|].
    apply (fetches_weaken 2 2); [exact (fetches_trans 1 1 1 1 _ _ _ H1 H2) | lia | lia].
  - eexists _, _. split; [reflexivity|]. apply (fetches_weaken 1 1); [exact H1 | lia | lia].
Qed.

Lemma scrape_schooldigger_fetches E name d w :
  exists d' w', PASchoolDistrictScraper.scrape_schooldigger E name d w = (Ok d', w') /\
                fetches 1 2 w w'.
Proof.
  unfold PASchoolDistrictScraper.scrape_schooldigger, bind at 1.
  destruct (sd_search_fetches E name "PA" w) as (r & w1 & -> & H1).
  destruct (if_truthy r) as [u|].
  - unfold bind. destruct (sd_scrape_fetches E u w1) as (data & w2 & -> & H2).
    eexists _, _. split; [reflexivity|].
    apply (fetches_weaken 2 2); [exact (fetches_trans 1 1 1 1 _ _ _ H1 H2) | lia | lia].
  - eexists _, _. split; [reflexivity|]. apply (fetches_weaken 1 1); [exact H1 | lia | lia].
Qed.

Lemma potential_url_truthy name state :
  if_truthy (Some (NicheScraper.potential_url name state)) =
  Some (NicheScraper.potential_url name state).
Proof. reflexivity. Qed.

Lemma scrape_niche_fetches E name d w :
  exists d' w', PASchoolDistrictScraper.scrape_niche E name d w = (Ok d', w') /\
                fetches 2 3 w w'.
Proof.
  unfold PASchoolDistrictScraper.scrape_niche, bind at 1.
  rewrite niche_search_run. cbv zeta.
  set (url := NicheScraper.potential_url name "pennsylvania").
  set (o := net E (gets w) url).
  pose proof (fetches_after_fetch NicheScraper.delay url o w
                ltac:(unfold NicheScraper.delay; lia)) as H1.
  destruct (NicheScraper.accepts (page_text o)).
  - subst url. rewrite potential_url_truthy. unfold bind.
    destruct (niche_scrape_fetches E (NicheScraper.potential_url name "pennsylvania")
                (after_fetch NicheScraper.delay
                   (NicheScraper.potential_url name "pennsylvania") o w))
      as (data & w2 & -> & H2).
    eexists _, _. split; [reflexivity|].
    apply (fetches_weaken 2 2); [exact (fetches_trans 1 1 1 1 _ _ _ H1 H2) | lia | lia].
  - destruct (niche_fallback_fetches E name "pennsylvania"
                (after_fetch NicheScraper.delay url o w)) as (r & w2 & -> & H2).
    pose proof (fetches_trans 1 1 1 1 _ _ _ H1 H2) as H12.
    destruct (if_truthy r) as [u|].
    + unfold bind. destruct (niche_scrape_fetches E u w2) as (data & w3 & -> & H3).
      eexists _, _. split; [reflexivity|].
      apply (fetches_weaken 3 3); [exact (fetches_trans _ _ 1 1 _ _ _ H12 H3) | lia | lia].
    + eexists _, _. split; [reflexivity|]. apply (fetches_weaken 2 2); [exact H12 | lia | lia].
Qed.

Lemma scrape_district_effects E total i name w :
  exists d w',
    PASchoolDistrictScraper.scrape_district E total i name w = (Ok d, w') /\
    last_updated d = Some (clock E (ticks w)) /\
    ticks w' = S (ticks w) /\
    count_gets (trace w) + 4 <= count_gets (trace w') /\
    count_gets (trace w') <= count_gets (trace w) + 7 /\
    (polite (trace w) = true -> polite (trace w') = true).
Proof.
  rewrite scrape_district_unfold.
  set (w0 := mkWorld _ _ _ _).
  set (d0 := PASchoolDistrictScraper.new_record _ _).
  destruct (quiet_site_lookups E name d0 w0) as (d & w' & Hrun & (_ & _ & Ht) & _).
  exists d, w'. split; [exact Hrun|]. split; [rewrite Ht; reflexivity|].
  revert Hrun. unfold bind at 1.
  destruct (scrape_greatschools_fetches E name d0 w0) as (d1 & w1 & -> & H1).
  unfold bind at 1.
  destruct (scrape_niche_fetches E name d1 w1) as (d2 & w2 & -> & H2).
  unfold bind at 1.
  destruct (scrape_schooldigger_fetches E name d2 w2) as (d3 & w3 & -> & H3).
  intros [= _ <-].
  pose proof (fetches_trans _ _ _ _ _ _ _ (fetches_trans _ _ _ _ _ _ _ H1 H2) H3)
    as (Hticks & Hlo & Hhi & Hp).
  assert (Hc0 : count_gets (trace w0) = count_gets (trace w))
    by (subst w0; simpl; rewrite count_gets_app; simpl; lia).
  rewrite Hc0 in Hlo, Hhi.
  split; [rewrite Hticks; reflexivity|].
  split; [lia|]. split; [lia|].
  intros Hw. apply Hp. subst w0; simpl. apply polite_app; [exact Hw | reflexivity].
Qed.

Lemma save_results_effects results filename w :
  exists w',
    PASchoolDistrictScraper.save_results results filename w = (Ok (), w') /\
    ticks w' = ticks w /\
    count_gets (trace w') = count_gets (trace w) /\
    (polite (trace w) = true -> polite (trace w') = true).
Proof.
  eexists. split; [reflexivity|]. simpl.
  rewrite !count_gets_app. simpl. repeat split; [lia|].
  intros Hw. repeat apply polite_app; try assumption; reflexivity.
Qed.

Lemma scrape_loop_effects E out total names : forall i acc w,
  exists new w',
    PASchoolDistrictScraper.scrape_loop E out total names i acc w = (Ok (acc ++ new), w') /\
    last_updated <$> new = stamps E (ticks w) (length names) /\
    ticks w' = ticks w + length names /\
    count_gets (trace w) + 4 * length names <= count_gets (trace w') /\
    count_gets (trace w') <= count_gets (trace w) + 7 * length names /\
    (polite (trace w) = true -> polite (trace w') = true).
Proof.
  induction names as [|name rest IH]; intros i acc w.
  - exists [], w. simpl. rewrite app_nil_r. repeat split; try lia. auto.
  - cbn [PASchoolDistrictScraper.scrape_loop]. unfold bind at 1.
    destruct (scrape_district_effects E total i name w)
      as (d & w1 & -> & Hstamp & Ht1 & Hlo1 & Hhi1 & Hp1).
    unfold bind at 1.
    assert (Hsave : exists w2,
      (if ((i + 1) mod 10 =? 0)%nat
       then PASchoolDistrictScraper.save_results (acc ++ [d]) ("temp_" +:+ out)
       else ret ()) w1 = (Ok (), w2) /\
      ticks w2 = ticks w1 /\ count_gets (trace w2) = count_gets (trace w1) /\
      (polite (trace w1) = true -> polite (trace w2) = true)).
    { destruct ((i + 1) mod 10 =? 0)%nat.
      - apply save_results_effects.
      - exists w1. repeat split. auto. }
    destruct Hsave as (w2 & -> & Ht2 & Hc2 & Hp2).
    destruct (IH (S i) (acc ++ [d]) w2) as (new & w' & -> & Hstamps & Ht & Hlo & Hhi & Hp).
    exists (d :: new), w'.
    split; [rewrite <- app_assoc; reflexivity|].
    split.
    { rewrite fmap_cons, Hstamp, Hstamps, Ht2, Ht1. reflexivity. }
    simpl length. repeat split; [lia | lia | lia | auto].
Qed.

Lemma scrape_all_districts_effects E names out w :
  exists results w',
    PASchoolDistrictScraper.scrape_all_districts E names out w = (Ok results, w') /\
    last_updated <$> results = stamps E (ticks w) (length names) /\
    ticks w' = ticks w + length names /\
    count_gets (trace w) + 4 * length names <= count_gets (trace w') /\
    count_gets (trace w') <= count_gets (trace w) + 7 * length names /\
    (polite (trace w) = true -> polite (trace w') = true).
Proof.
  unfold PASchoolDistrictScraper.scrape_all_districts, bind at 1.
  destruct (scrape_loop_effects E out (length names) names 0 [] w)
    as (results & w1 & -> & Hstamps & Ht & Hlo & Hhi & Hp).
  change ([] ++ results) with results.
  unfold bind at 1.
  destruct (save_results_effects results out w1) as (w2 & -> & Ht2 & Hc2 & Hp2).
  unfold bind, emit, ret. eexists _, _. split; [reflexivity|]. simpl.
  rewrite count_gets_app. simpl.
  split; [exact Hstamps|]. split; [lia|]. split; [lia|]. split; [lia|].
  intros Hw. apply polite_app; [auto | reflexivity].
Qed.

(** X9.  Rate limiting holds over a whole run: if every GET recorded
    before the run came directly after a sleep of at least one second and
    carried the 10-second timeout, the same is true of the trace when
    [scrape_all_districts] returns.  No request of any of the three
    scrapers is issued without its delay. *)
Theorem every_request_is_rate_limited (E : Env) (names : list string) (out : string)
    (w : world) :
  polite (trace w) = true ->
  polite (trace (snd (PASchoolDistrictScraper.scrape_all_districts E names out w))) = true.
Proof.
  intros Hw.
  destruct (scrape_all_districts_effects E names out w)
    as (results & w' & -> & _ & _ & _ & _ & Hp).
  exact (Hp Hw).
Qed.

Lemma every_request_is_rate_limited_witness :
  polite (trace Mock.start) = true /\
  polite (trace (snd (PASchoolDistrictScraper.scrape_all_districts Mock.reachable
                        [Mock.pittsburgh; "Nowhere"] "out.csv" Mock.start))) = true.
Proof.
  split; [reflexivity|].
  exact (every_request_is_rate_limited Mock.reachable [Mock.pittsburgh; "Nowhere"]
           "out.csv" Mock.start eq_refl).
Defined.





(** ** Every field has its source *)













(** ** The first number wins *)








(** ** What a fetch leaves in the log *)

(** X15.  One call of [get_page_source] touches no file and does not
    read the clock; it appends to the log the sleep, the GET with its
    10-second timeout and then, exactly when it returns absent, one
    error entry for the URL.  A page that is returned is never
    accompanied by an error entry, and an absent result never goes
    unlogged. *)
Theorem absent_result_is_logged (E : Env) (delay : nat) (url : string) (w : world) :
  let r := fst (BaseScraper.get_page_source E delay url w) in
  let w' := snd (BaseScraper.get_page_source E delay url w) in
  files w' = files w /\
  ticks w' = ticks w /\
  exists log,
    trace w' = trace w ++ [EvSleep delay; EvGet url 10] ++ log /\
    match r with
    | Ok (Some _) => log = []
    | Ok None => exists e, log = [EvLogError url e]
    | Raise _ => False
    end.
Proof.
  intros r w'. subst r w'. rewrite get_page_source_run. simpl.
  split; [reflexivity|]. split; [reflexivity|].
  destruct (net E (gets w) url) as [e|st body]; simpl.
  - exists [EvLogError url e]. split; [rewrite <- app_assoc; reflexivity | eexists; reflexivity].
  - destruct ((400 <=? st) && (st <? 600))%Z.
    + exists [EvLogError url (HTTPError st)].
      split; [rewrite <- app_assoc; reflexivity | eexists; reflexivity].
    + exists []. split; reflexivity.
Qed.

(** ** A run never reads what an earlier run left *)

Lemma same_counters_after_fetch d1 u1 o1 d2 u2 o2 w1 w2 :
  same_counters w1 w2 ->
  same_counters (after_fetch d1 u1 o1 w1) (after_fetch d2 u2 o2 w2).
Proof. intros [Hg Ht]. split; simpl; congruence. Qed.

Lemma counters_ret {A} (a : A) : reads_counters_only (ret a).
Proof. intros w1 w2 H. exists a, w1, w2. repeat split; apply H. Qed.

Lemma counters_bind {A B} (m : M A) (k : A -> M B) :
  reads_counters_only m -> (forall a, reads_counters_only (k a)) ->
  reads_counters_only (bind m k).
Proof.
  intros Hm Hk w1 w2 H.
  destruct (Hm w1 w2 H) as (a & v1 & v2 & H1 & H2 & Hv).
  destruct (Hk a v1 v2 Hv) as (b & u1 & u2 & K1 & K2 & Hu).
  exists b, u1, u2. unfold bind. rewrite H1, H2. repeat split; assumption || apply Hu.
Qed.

Ltac counters_of_run lemma :=
  let w1 := fresh "w1" in
  let w2 := fresh "w2" in
  let H := fresh "H" in
  intros w1 w2 H; rewrite !lemma; cbv zeta;
  rewrite (proj1 H);
  eexists _, _, _; split; [reflexivity|]; split; [reflexivity|];
  apply same_counters_after_fetch; exact H.

Lemma counters_get_page_source E delay url :
  reads_counters_only (BaseScraper.get_page_source E delay url).
Proof. counters_of_run get_page_source_run. Qed.

Lemma counters_gs_search E name state :
  reads_counters_only (GreatSchoolsScraper.search_district E name state).
Proof. counters_of_run gs_search_run. Qed.

Lemma counters_gs_scrape E url :
  reads_counters_only (GreatSchoolsScraper.scrape_district_data E url).
Proof. counters_of_run gs_scrape_run. Qed.

Lemma counters_niche_fallback E name state :
  reads_counters_only (NicheScraper.search_fallback E name state).
Proof. counters_of_run niche_fallback_run. Qed.

Lemma counters_niche_search E name state :
  reads_counters_only (NicheScraper.search_district E name state).
Proof.
  unfold NicheScraper.search_district.
  apply counters_bind; [apply counters_get_page_source|].
  intros source. destruct (NicheScraper.accepts source);
    [apply counters_ret | apply counters_niche_fallback].
Qed.

Lemma counters_niche_scrape E url :
  reads_counters_only (NicheScraper.scrape_district_data E url).
Proof. counters_of_run niche_scrape_run. Qed.

Lemma counters_sd_search E name state :
  reads_counters_only (SchoolDiggerScraper.search_district E name state).
Proof. counters_of_run sd_search_run. Qed.

Lemma counters_sd_scrape E url :
  reads_counters_only (SchoolDiggerScraper.scrape_district_data E url).
Proof. counters_of_run sd_scrape_run. Qed.

Lemma counters_emit e : reads_counters_only (emit e).
Proof. intros w1 w2 H. eexists _, _, _. repeat split; apply H. Qed.

Lemma counters_timestamp_now E : reads_counters_only (timestamp_now E).
Proof.
  intros w1 w2 [Hg Ht]. unfold timestamp_now. rewrite Ht.
  eexists _, _, _. repeat split; simpl; congruence.
Qed.

Lemma counters_save_results results filename :
  reads_counters_only (PASchoolDistrictScraper.save_results results filename).
Proof. intros w1 w2 H. eexists _, _, _. repeat split; apply H. Qed.

Lemma counters_scrape_district E total i name :
  reads_counters_only (PASchoolDistrictScraper.scrape_district E total i name).
Proof.
  unfold PASchoolDistrictScraper.scrape_district.
  apply counters_bind; [apply counters_emit|]. intros _.
  apply counters_bind; [apply counters_timestamp_now|]. intros now.
  apply counters_bind.
  { unfold PASchoolDistrictScraper.scrape_greatschools.
    apply counters_bind; [apply counters_gs_search|]. intros r.
    destruct (if_truthy r); [|apply counters_ret].
    apply counters_bind; [apply counters_gs_scrape|]. intros data. apply counters_ret. }
  intros d1. apply counters_bind.
  { unfold PASchoolDistrictScraper.scrape_niche.
    apply counters_bind; [apply counters_niche_search|]. intros r.
    destruct (if_truthy r); [|apply counters_ret].
    apply counters_bind; [apply counters_niche_scrape|]. intros data. apply counters_ret. }
  intros d2. apply counters_bind.
  { unfold PASchoolDistrictScraper.scrape_schooldigger.
    apply counters_bind; [apply counters_sd_search|]. intros r.
    destruct (if_truthy r); [|apply counters_ret].
    apply counters_bind; [apply counters_sd_scrape|]. intros data. apply counters_ret. }
  intros d3. apply counters_ret.
Qed.

Lemma counters_scrape_loop E out total names : forall i acc,
  reads_counters_only (PASchoolDistrictScraper.scrape_loop E out total names i acc).
Proof.
  induction names as [|name rest IH]; intros i acc; [apply counters_ret|].
  cbn [PASchoolDistrictScraper.scrape_loop].
  apply counters_bind; [apply counters_scrape_district|]. intros d.
  apply counters_bind; [|intros _; apply IH].
  destruct ((i + 1) mod 10 =? 0)%nat; [apply counters_save_results | apply counters_ret].
Qed.

(** X16.  What a run returns depends on the world it starts in only
    through the number of requests already made and the number of clock
    readings already taken.  Files already on disk, a checkpoint of an
    interrupted run among them, and the log written so far are never
    read: a run does not resume, it starts over. *)
Theorem leftover_files_are_never_read (E : Env) (names : list string) (out : string)
    (w1 w2 : world) :
  gets w1 = gets w2 ->
  ticks w1 = ticks w2 ->
  fst (PASchoolDistrictScraper.scrape_all_districts E names out w1) =
  fst (PASchoolDistrictScraper.scrape_all_districts E names out w2).
Proof.
  intros Hg Ht.
  assert (Hall : reads_counters_only
                   (PASchoolDistrictScraper.scrape_all_districts E names out)).
  { unfold PASchoolDistrictScraper.scrape_all_districts.
    apply counters_bind; [apply counters_scrape_loop|]. intros results.
    apply counters_bind; [apply counters_save_results|]. intros _.
    apply counters_bind; [apply counters_emit|]. intros _. apply counters_ret. }
  destruct (Hall w1 w2 (conj Hg Ht)) as (a & v1 & v2 & -> & -> & _). reflexivity.
Qed.

Lemma leftover_files_are_never_read_witness :
  gets Mock.start = gets Mock.leftover /\
  ticks Mock.start = ticks Mock.leftover /\
  fst (PASchoolDistrictScraper.scrape_all_districts Mock.reachable
         [Mock.pittsburgh; "Nowhere"] "out.csv" Mock.start) =
  fst (PASchoolDistrictScraper.scrape_all_districts Mock.reachable
         [Mock.pittsburgh; "Nowhere"] "out.csv" Mock.leftover).
Proof.
  split; [reflexivity|]. split; [reflexivity|].
  exact (leftover_files_are_never_read Mock.reachable [Mock.pittsburgh; "Nowhere"]
           "out.csv" Mock.start Mock.leftover eq_refl eq_refl).
Defined.
